(** * Historical Street View: marking, compositing and generation pipeline

    A shallow embedding of the map-marking component ([MapMarker.tsx]),
    the image service ([generateStreetView]) and the top-level
    orchestrator ([App]) together with the properties their design
    document states about them.

    Conventions of the embedding.
    - In the components and the orchestrator a JavaScript number that
      carries a coordinate is a real number, its arithmetic exact: what is
      stated there is which commands are issued, in which order and behind
      which guards, never the rounded value of a coordinate.  The pixel
      sizes of canvases and images are integers.
    - The arrow renderer is given a second time in the arithmetic the
      program runs in ([Doubles]): IEEE 754 binary64 numbers, every
      operation rounded, with [Math.atan2], [Math.cos] and [Math.sin]
      left to the engine.  What is stated about the numbers the renderer
      produces is stated there.
    - A JavaScript string is a [string]; [null] and [undefined] are [None].
    - The 2D drawing context is the list of commands issued on it, in
      order.
    - A React component instance carries its [useState] and [useRef]
      cells; the mounted tree is rebuilt from the element tree by
      position and component type, as React's reconciler does. *)

From Stdlib Require Import Reals Lra Lia ZArith List String Ascii Bool Arith.
From Stdlib Require Floats.
Import ListNotations.

Set Warnings "-register-all,-inexact-float".

Open Scope string_scope.
Open Scope list_scope.
Open Scope R_scope.

(* ================================================================== *)
(** * Data model *)
(* ================================================================== *)

(** Modelled from the spec: the [Point] interface of [types.ts], a pair
    [{x: number, y: number}] in image-native pixel coordinates. *)
Record Point : Type := mkPoint { px : R; py : R }.

(** Modelled from the spec: the [AppState] enumeration of [types.ts],
    [{Upload, Marking, Generating, Result}], under the names the
    orchestrator uses. *)
Inductive AppState : Type := UPLOAD | MARKING | GENERATING | RESULT.

(** A decoded [HTMLImageElement]; its natural size is a whole number of
    pixels. *)
Record Image : Type := mkImage {
  src : string;
  naturalWidth : Z;
  naturalHeight : Z
}.

(** The commands a [CanvasRenderingContext2D] receives. *)
Inductive DrawCmd : Type :=
| SetStrokeStyle (c : string)
| SetLineWidth (w : R)
| SetLineCap (c : string)
| SetShadowColor (c : string)
| SetShadowBlur (b : R)
| SetFillStyle (c : string)
| BeginPath
| MoveTo (x y : R)
| LineTo (x y : R)
| Stroke
| Arc (x y r a0 a1 : R)
| Fill
| ClearRect (x y w h : R)
| DrawImage (img : Image) (x y : R).

(** An [HTMLCanvasElement]: the size of its pixel buffer, a whole number
    of pixels each way, and the commands drawn on it since the buffer was
    last cleared. *)
Record Canvas : Type := mkCanvas {
  width : Z;
  height : Z;
  ops : list DrawCmd
}.

(** A canvas element as the browser creates it. *)
Definition defaultCanvas : Canvas := mkCanvas 300 150 [].

(** [canvas.width = w; canvas.height = h]: assigning a dimension resizes
    the pixel buffer and clears it. *)
Definition setSize (w h : Z) (c : Canvas) : Canvas := mkCanvas w h [].

(** Issuing commands on the context of a canvas. *)
Definition draw (cmds : list DrawCmd) (c : Canvas) : Canvas :=
  mkCanvas (width c) (height c) (ops c ++ cmds).

(** [getBoundingClientRect()]: the displayed rectangle of an element. *)
Record DOMRect : Type := mkRect {
  left : R;
  top : R;
  rectWidth : R;
  rectHeight : R
}.

(** The part of a mouse event the component reads. *)
Record MouseEvent : Type := mkEvent { clientX : R; clientY : R }.

(** JavaScript truthiness of a [string | null]: the string when the value
    is neither [null] nor the empty string. *)
Definition truthy (v : option string) : option string :=
  match v with
  | Some s => if (s =? "")%string then None else Some s
  | None => None
  end.

(** ** Callbacks handed to the components

    The orchestrator passes either one of its handlers or the empty
    function [() => {}]. *)

Inductive GenerateCallback : Type :=
| CallGenerationStart   (* [handleGenerationStart] *)
| NoGenerate.           (* [() => {}] *)

Inductive UploadCallback : Type :=
| CallUploadNew         (* [handleUploadNew] *)
| NoUpload.             (* [() => {}] *)

Inductive RestartCallback : Type :=
| CallRestart           (* [handleRestart] *)
| NoRestart.            (* [() => {}] *)

Inductive RegenerateCallback : Type :=
| CallRegenerate        (* [handleRegenerate] *)
| NoRegenerate.         (* [() => {}] *)

(* ================================================================== *)
(** * Arrow geometry renderer *)
(* ================================================================== *)

Module Geometry.

(** [Math.atan2(y, x)] on real numbers: the angle of the vector [(x, y)]
    in the interval (-PI, PI], and 0 for the null vector. *)
Definition atan2 (y x : R) : R :=
  if Rlt_dec 0 x then atan (y / x)
  else if Rlt_dec x 0 then
    (if Rle_dec 0 y then atan (y / x) + PI else atan (y / x) - PI)
  else if Rlt_dec 0 y then PI / 2
  else if Rlt_dec y 0 then - (PI / 2)
  else 0.

Definition headlen : R := 25.
Definition tailExtension : R := 50.

(** [drawArrow(context, from, to)]: the commands issued on [context], the
    coordinates in exact arithmetic.  The order of the commands and the
    guard on identical points are those of the source; the coordinates
    the source computes are the rounded ones of [Doubles.drawArrow]. *)
Definition drawArrow (from to : Point) : list DrawCmd :=
  let dx := px to - px from in
  let dy := py to - py from in
  let angle := atan2 dy dx in
  let length := sqrt (dx * dx + dy * dy) in
  if Req_dec_T length 0 then []
  else
    let ux := dx / length in
    let uy := dy / length in
    let tailX := px from - ux * tailExtension in
    let tailY := py from - uy * tailExtension in
    [ SetStrokeStyle "#FF007A";
      SetLineWidth 6;
      SetLineCap "round";
      SetShadowColor "rgba(0, 0, 0, 0.7)";
      SetShadowBlur 10;
      BeginPath;
      MoveTo tailX tailY;
      LineTo (px to) (py to);
      Stroke;
      BeginPath;
      MoveTo (px to) (py to);
      LineTo (px to - headlen * cos (angle - PI / 6))
             (py to - headlen * sin (angle - PI / 6));
      MoveTo (px to) (py to);
      LineTo (px to - headlen * cos (angle + PI / 6))
             (py to - headlen * sin (angle + PI / 6));
      Stroke;
      SetShadowColor "transparent";
      SetShadowBlur 0 ].

(** ** Reading a command list as stroked line segments *)

Definition Segment : Type := (Point * Point)%type.

(** The state of the current path: the pen position, if any, and the
    segments accumulated since the last [beginPath]. *)
Record Path : Type := mkPath {
  pen : option Point;
  segs : list Segment
}.

Definition emptyPath : Path := mkPath None [].

(** One command against the current path; a [stroke] paints the path (the
    second component is the painted path, when there is one). *)
Definition pathStep (p : Path) (c : DrawCmd) : Path * option (list Segment) :=
  match c with
  | BeginPath => (emptyPath, None)
  | MoveTo x y => (mkPath (Some (mkPoint x y)) (segs p), None)
  | LineTo x y =>
      match pen p with
      | Some q => (mkPath (Some (mkPoint x y)) (segs p ++ [(q, mkPoint x y)]), None)
      | None => (mkPath (Some (mkPoint x y)) (segs p), None)
      end
  | Stroke => (p, Some (segs p))
  | _ => (p, None)
  end.

(** The list of stroked paths of a command list, in painting order. *)
Fixpoint strokesFrom (p : Path) (cmds : list DrawCmd) : list (list Segment) :=
  match cmds with
  | [] => []
  | c :: rest =>
      let '(p', painted) := pathStep p c in
      match painted with
      | Some s => s :: strokesFrom p' rest
      | None => strokesFrom p' rest
      end
  end.

Definition strokes (cmds : list DrawCmd) : list (list Segment) :=
  strokesFrom emptyPath cmds.

(** Is the command one that builds or paints a line? *)
Definition isLineCmd (c : DrawCmd) : bool :=
  match c with
  | BeginPath | MoveTo _ _ | LineTo _ _ | Stroke => true
  | _ => false
  end.

End Geometry.

(* ================================================================== *)
(** * The arrow renderer in double precision *)
(* ================================================================== *)

Module Doubles.

Import PrimFloat.
Local Open Scope float_scope.

(** A [Point] whose coordinates are JavaScript numbers. *)
Record DPoint : Type := mkDPoint { dpx : float; dpy : float }.

(** The commands [drawArrow] issues on the context, with the numbers it
    passes. *)
Inductive DCmd : Type :=
| SetStrokeStyle (c : string)
| SetLineWidth (w : float)
| SetLineCap (c : string)
| SetShadowColor (c : string)
| SetShadowBlur (b : float)
| BeginPath
| MoveTo (x y : float)
| LineTo (x y : float)
| Stroke.

(** The functions of [Math] the renderer calls.  The language fixes
    [Math.sqrt] (correctly rounded) but leaves [atan2], [cos] and [sin]
    to the engine, as approximations. *)
Record MathLib : Type := mkMath {
  atan2 : float -> float -> float;
  cos : float -> float;
  sin : float -> float
}.

(** [Math.PI], 3.141592653589793. *)
Definition PI : float := 0x1.921fb54442d18p+1.

(** [drawArrow(context, from, to)]: the commands issued on [context];
    [length === 0] is the comparison of two numbers. *)
Definition drawArrow (m : MathLib) (from to : DPoint) : list DCmd :=
  let headlen := 25 in
  let tailExtension := 50 in
  let dx := dpx to - dpx from in
  let dy := dpy to - dpy from in
  let angle := atan2 m dy dx in
  let length := sqrt (dx * dx + dy * dy) in
  if (length =? 0) then []
  else
    let ux := dx / length in
    let uy := dy / length in
    let tailX := dpx from - ux * tailExtension in
    let tailY := dpy from - uy * tailExtension in
    [ SetStrokeStyle "#FF007A";
      SetLineWidth 6;
      SetLineCap "round";
      SetShadowColor "rgba(0, 0, 0, 0.7)";
      SetShadowBlur 10;
      BeginPath;
      MoveTo tailX tailY;
      LineTo (dpx to) (dpy to);
      Stroke;
      BeginPath;
      MoveTo (dpx to) (dpy to);
      LineTo (dpx to - headlen * cos m (angle - PI / 6))
             (dpy to - headlen * sin m (angle - PI / 6));
      MoveTo (dpx to) (dpy to);
      LineTo (dpx to - headlen * cos m (angle + PI / 6))
             (dpy to - headlen * sin m (angle + PI / 6));
      Stroke;
      SetShadowColor "transparent";
      SetShadowBlur 0 ].

(** ** Reading a command list as stroked line segments *)

Definition Segment : Type := (DPoint * DPoint)%type.

Record Path : Type := mkPath {
  pen : option DPoint;
  segs : list Segment
}.

Definition emptyPath : Path := mkPath None [].

(** Neither coordinate is infinite or [NaN]. *)
Definition finitePoint (p : DPoint) : bool :=
  is_finite (dpx p) && is_finite (dpy p).

(** One command against the current path.  The context ignores a
    [moveTo] or a [lineTo] one of whose arguments is infinite or [NaN]; a
    [lineTo] on a path without a pen position only sets it. *)
Definition pathStep (p : Path) (c : DCmd) : Path * option (list Segment) :=
  match c with
  | BeginPath => (emptyPath, None)
  | MoveTo x y =>
      if finitePoint (mkDPoint x y)
      then (mkPath (Some (mkDPoint x y)) (segs p), None)
      else (p, None)
  | LineTo x y =>
      if finitePoint (mkDPoint x y)
      then
        match pen p with
        | Some q => (mkPath (Some (mkDPoint x y)) (segs p ++ [(q, mkDPoint x y)]), None)
        | None => (mkPath (Some (mkDPoint x y)) (segs p), None)
        end
      else (p, None)
  | Stroke => (p, Some (segs p))
  | _ => (p, None)
  end.

Fixpoint strokesFrom (p : Path) (cmds : list DCmd) : list (list Segment) :=
  match cmds with
  | [] => []
  | c :: rest =>
      let '(p', painted) := pathStep p c in
      match painted with
      | Some s => s :: strokesFrom p' rest
      | None => strokesFrom p' rest
      end
  end.

Definition strokes (cmds : list DCmd) : list (list Segment) :=
  strokesFrom emptyPath cmds.


End Doubles.

(* ================================================================== *)
(** * The marking component ([MapMarker]) *)
(* ================================================================== *)

Module MapMarker.

Import Geometry.

Record MapMarkerProps : Type := mkMarkerProps {
  mapImageUrl : string;
  onGenerate : GenerateCallback;
  disabled : bool;
  error : option string;
  onUploadNew : UploadCallback
}.

(** The cells of one mounted [MapMarker]: two refs and two states. *)
Record MarkerState : Type := mkMarker {
  canvasRef : option Canvas;
  imageRef : option Image;
  points : list Point;
  imageSize : Z * Z
}.

(** The cells of a [MapMarker] right after it was mounted: the canvas
    element is attached to its ref, nothing else is set. *)
Definition initial : MarkerState :=
  mkMarker (Some defaultCanvas) None [] (0%Z, 0%Z).

Definition setPoints (f : list Point -> list Point) (s : MarkerState) : MarkerState :=
  mkMarker (canvasRef s) (imageRef s) (f (points s)) (imageSize s).

Definition setCanvas (c : Canvas) (s : MarkerState) : MarkerState :=
  mkMarker (Some c) (imageRef s) (points s) (imageSize s).

(** [image.onload] of the first effect. *)
Definition imageLoaded (img : Image) (s : MarkerState) : MarkerState :=
  mkMarker (canvasRef s) (Some img) (points s)
           (naturalWidth img, naturalHeight img).

(** The coordinate mapper of [handleCanvasClick]: from the viewport
    position of the event to the pixel space of the canvas buffer.  The
    formula is that of the source, in exact arithmetic: the source rounds
    each operation to a double, and with a displayed size of zero its
    quotient is [Infinity] or [NaN] where the quotient here is 0. *)
Definition toImagePoint (canvas : Canvas) (rect : DOMRect) (event : MouseEvent) : Point :=
  let scaleX := IZR (width canvas) / rectWidth rect in
  let scaleY := IZR (height canvas) / rectHeight rect in
  let x := (clientX event - left rect) * scaleX in
  let y := (clientY event - top rect) * scaleY in
  mkPoint x y.

(** [handleCanvasClick(event)]; [rect] is what
    [canvas.getBoundingClientRect()] answers. *)
Definition handleCanvasClick (props : MapMarkerProps) (rect : DOMRect)
    (event : MouseEvent) (s : MarkerState) : MarkerState :=
  if (2 <=? List.length (points s))%nat || disabled props then s
  else
    match canvasRef s with
    | None => s
    | Some canvas =>
        let p := toImagePoint canvas rect event in
        setPoints (fun prevPoints => prevPoints ++ [p]) s
    end.

(** [prevPoints.slice(0, -1)]. *)
Definition dropLast (l : list Point) : list Point := removelast l.

(** [handleUndo()]. *)
Definition handleUndo (s : MarkerState) : MarkerState :=
  setPoints dropLast s.

(** The second effect, run after every render in which [points] or
    [imageSize] changed: the preview is redrawn from scratch. *)
Definition redraw (s : MarkerState) : MarkerState :=
  match canvasRef s, imageRef s with
  | Some canvas, Some image =>
      if (fst (imageSize s) =? 0)%Z then s
      else
        let canvas := setSize (naturalWidth image) (naturalHeight image) canvas in
        let canvas :=
          draw [ClearRect 0 0 (IZR (width canvas)) (IZR (height canvas));
                DrawImage image 0 0] canvas in
        match points s with
        | [p0; p1] => setCanvas (draw (drawArrow p0 p1) canvas) s
        | [p0] =>
            setCanvas
              (draw [BeginPath;
                     Arc (px p0) (py p0) 10 0 (2 * PI);
                     SetFillStyle "#FF007A";
                     Fill] canvas) s
        | _ => setCanvas canvas s
        end
  | _, _ => s
  end.

Section Exporter.

(** [canvas.toDataURL(type, quality)]: the encoder of the browser. *)
Variable toDataURL : Canvas -> string -> R -> string.

(** [handleGenerateClick()]: the cells afterwards and, when [onGenerate]
    is called, its argument. *)
Definition handleGenerateClick (s : MarkerState) : MarkerState * option string :=
  match canvasRef s, imageRef s with
  | Some canvas, Some image =>
      match points s with
      | [p0; p1] =>
          let canvas := setSize (naturalWidth image) (naturalHeight image) canvas in
          let canvas := draw [DrawImage image 0 0] canvas in
          let canvas := draw (drawArrow p0 p1) canvas in
          let mergedImage := toDataURL canvas "image/jpeg" (9 / 10) in
          (setCanvas canvas s, Some mergedImage)
      | _ => (s, None)
      end
  | _, _ => (s, None)
  end.

End Exporter.

(** The [disabled] attribute of the Undo button. *)
Definition undoDisabled (props : MapMarkerProps) (s : MarkerState) : bool :=
  (List.length (points s) =? 0)%nat || disabled props.

(** The [disabled] attribute of the Generate button. *)
Definition generateDisabled (props : MapMarkerProps) (s : MarkerState) : bool :=
  negb (List.length (points s) =? 2)%nat || disabled props.

(** The operations of the point-capture state machine. *)
Inductive Op : Type :=
| Add (rect : DOMRect) (event : MouseEvent)
| Undo.

Definition step (props : MapMarkerProps) (s : MarkerState) (o : Op) : MarkerState :=
  match o with
  | Add rect event => handleCanvasClick props rect event s
  | Undo => handleUndo s
  end.

Definition run (props : MapMarkerProps) (ops : list Op) (s : MarkerState) : MarkerState :=
  fold_left (step props) ops s.

Definition isAdd (o : Op) : bool :=
  match o with Add _ _ => true | Undo => false end.

(** A sequence is orderly from a set of [n] points when every [Undo] has
    a point to remove and none comes after an [Add] that found the set
    full ([dropped] records that one did). *)
Fixpoint orderly (n : nat) (dropped : bool) (ops : list Op) : bool :=
  match ops with
  | [] => true
  | Add _ _ :: rest =>
      if (n <? 2)%nat then orderly (S n) dropped rest else orderly n true rest
  | Undo :: rest =>
      if (n =? 0)%nat || dropped then false else orderly (pred n) dropped rest
  end.

Definition adds (ops : list Op) : nat := List.length (filter isAdd ops).
Definition undos (ops : list Op) : nat :=
  List.length (filter (fun o => negb (isAdd o)) ops).

End MapMarker.

(* ================================================================== *)
(** * The image service ([generateStreetView]) *)
(* ================================================================== *)

(** A thrown value: an [Error] with its message, or anything else. *)
Inductive Thrown : Type :=
| ErrorObj (message : string)
| NonError.

(** How a call ends: it returns, or it throws (a promise resolves, or
    rejects). *)
Inductive Completion (A : Type) : Type :=
| Returned (a : A)
| Threw (e : Thrown).

Arguments Returned {A} a.
Arguments Threw {A} e.

Module Service.

(** ** The pattern of [base64ToInlineData] *)

Definition isLower (c : ascii) : bool :=
  let n := nat_of_ascii c in ((97 <=? n) && (n <=? 122))%nat.

(** The characters [.] does not match: line feed and carriage return
    (a character of a [string] is a code unit below 256; the two other
    line terminators of the language, U+2028 and U+2029, are above). *)
Definition isLineTerminator (c : ascii) : bool :=
  let n := nat_of_ascii c in ((n =? 10) || (n =? 13))%nat.

Fixpoint allChars (f : ascii -> bool) (s : string) : bool :=
  match s with
  | EmptyString => true
  | String c rest => f c && allChars f rest
  end.

(** Remove the literal [p] from the front of [s], if it is there. *)
Fixpoint stripPrefix (p s : string) : option string :=
  match p with
  | EmptyString => Some s
  | String a p' =>
      match s with
      | EmptyString => None
      | String b s' => if Ascii.eqb a b then stripPrefix p' s' else None
      end
  end.

(** The longest run of lower-case letters at the front of [s], and what
    follows it. *)
Fixpoint spanLower (s : string) : string * string :=
  match s with
  | EmptyString => (EmptyString, EmptyString)
  | String c rest =>
      if isLower c then
        let '(run, tl) := spanLower rest in (String c run, tl)
      else (EmptyString, s)
  end.

(** [base64String.match(re)] for the anchored pattern of the source: the
    literal [data:], a first group made of [image/] and one or more
    letters of [a-z], the literal [;base64,], and a second group that
    takes every character up to the end of the string, none of which may
    be a line terminator.  The result is the two groups, or [None] when
    there is no match.  A run of [a-z] is never followed by a letter of
    [a-z], so only the longest run can be followed by [;]. *)
Definition matchDataUri (s : string) : option (string * string) :=
  match stripPrefix "data:image/" s with
  | None => None
  | Some afterSlash =>
      let '(subtype, afterSubtype) := spanLower afterSlash in
      match subtype with
      | EmptyString => None
      | _ =>
          match stripPrefix ";base64," afterSubtype with
          | None => None
          | Some payload =>
              if allChars (fun c => negb (isLineTerminator c)) payload
              then Some (("image/" ++ subtype)%string, payload)
              else None
          end
      end
  end.

(** The pattern in words: [s] is [data:image/], a non-empty run [subtype]
    of lower-case letters, [;base64,], and a [payload] free of line
    terminators. *)
Definition matchesPattern (s subtype payload : string) : Prop :=
  s = ("data:image/" ++ subtype ++ ";base64," ++ payload)%string /\
  subtype <> EmptyString /\
  allChars isLower subtype = true /\
  allChars (fun c => negb (isLineTerminator c)) payload = true.

Record InlineData : Type := mkInline { mimeType : string; data : string }.

(** [base64ToInlineData(base64String)]. *)
Definition base64ToInlineData (base64String : string) : Completion InlineData :=
  match matchDataUri base64String with
  | None => Threw (ErrorObj "Invalid base64 string format")
  | Some (mimeType, data) => Returned (mkInline mimeType data)
  end.

(** ** The external model *)

Definition PROMPT : string :=
  "Imagine a camera positioned exactly at the tail of the arrow on the map, pointing directly towards the arrowhead. Generate a hyper-realistic, photorealistic, 3D, first-person street-level view from this precise location and direction. The generated image must strictly adhere to the historical period, atmosphere, and universe depicted in the map. Use the map's style, labels, and illustrations as critical clues to inform the architecture, technology, clothing, and overall environment of the scene, ensuring the final image looks like a real-world photograph from within that specific world.".

(** The request handed to [ai.models.generateContent]. *)
Record Request : Type := mkRequest {
  model : string;
  imagePart : InlineData;
  textPart : string
}.

(** One part of a response. *)
Record Part : Type := mkPart {
  inlineData : option InlineData;
  text : option string
}.

(** A response: [candidates], and for each candidate [content.parts]
    (absent when [content] or [parts] is). *)
Record Response : Type := mkResponse {
  candidates : option (list (option (list Part)))
}.

(** The external service: what a request is answered with. *)
Definition Api : Type := Request -> Completion Response.

(** [response.candidates?.[0]?.content?.parts ?? []]. *)
Definition firstParts (response : Response) : list Part :=
  match candidates response with
  | Some (Some parts :: _) => parts
  | _ => []
  end.

(** The loop over the parts: the first one with inline data wins. *)
Fixpoint firstImage (parts : list Part) : option string :=
  match parts with
  | [] => None
  | part :: rest =>
      match inlineData part with
      | Some d => Some ("data:" ++ mimeType d ++ ";base64," ++ data d)%string
      | None => firstImage rest
      end
  end.

(** The [catch] clause of [generateStreetView]. *)
Definition rethrow (e : Thrown) : Thrown :=
  match e with
  | ErrorObj message => ErrorObj ("Gemini API Error: " ++ message)%string
  | NonError => ErrorObj "An unknown error occurred while contacting the Gemini API."
  end.

(** [generateStreetView(mergedImageBase64)]: how the call ends, and the
    requests that were sent to the external service on the way. *)
Definition generateStreetView (api : Api) (mergedImageBase64 : string)
  : Completion (option string) * list Request :=
  match base64ToInlineData mergedImageBase64 with
  | Threw e => (Threw (rethrow e), [])
  | Returned d =>
      let request := mkRequest "gemini-2.5-flash-image-preview" d PROMPT in
      match api request with
      | Threw e => (Threw (rethrow e), [request])
      | Returned response => (Returned (firstImage (firstParts response)), [request])
      end
  end.

End Service.

(* ================================================================== *)
(** * The result screen ([ResultDisplay]) *)
(* ================================================================== *)

Module ResultDisplay.

Record ResultDisplayProps : Type := mkResultProps {
  generatedImageUrl : string;
  onRestart : RestartCallback;
  onUploadNew : UploadCallback;
  onRegenerate : RegenerateCallback;
  disabled : bool;
  error : option string
}.

(** The [src] of the image the screen shows. *)
Definition shownImage (props : ResultDisplayProps) : string :=
  generatedImageUrl props.

(** The error banner: [{error && <p>{error}</p>}]. *)
Definition shownError (props : ResultDisplayProps) : option string :=
  match error props with
  | Some "" => None
  | e => e
  end.

End ResultDisplay.

(* ================================================================== *)
(** * The orchestrator ([App]) *)
(* ================================================================== *)

Module App.

Import Service.

(** The five [useState] cells of [App]. *)
Record State : Type := mkApp {
  appState : AppState;
  mapImageUrl : option string;
  generatedImageUrl : option string;
  lastMergedImage : option string;
  error : option string
}.

Definition initial : State := mkApp UPLOAD None None None None.

Definition setAppState (v : AppState) (a : State) : State :=
  mkApp v (mapImageUrl a) (generatedImageUrl a) (lastMergedImage a) (error a).
Definition setMapImageUrl (v : option string) (a : State) : State :=
  mkApp (appState a) v (generatedImageUrl a) (lastMergedImage a) (error a).
Definition setGeneratedImageUrl (v : option string) (a : State) : State :=
  mkApp (appState a) (mapImageUrl a) v (lastMergedImage a) (error a).
Definition setLastMergedImage (v : option string) (a : State) : State :=
  mkApp (appState a) (mapImageUrl a) (generatedImageUrl a) v (error a).
Definition setError (v : option string) (a : State) : State :=
  mkApp (appState a) (mapImageUrl a) (generatedImageUrl a) (lastMergedImage a) v.

(** What a [FileReader] delivers. *)
Inductive FileRead : Type :=
| ReadString (result : string)   (* [onload], [result] is a string *)
| ReadOther                      (* [onload], [result] is not a string *)
| ReadFailed.                    (* [onerror] *)

(** [handleFileUpload(file)], once the reader has finished. *)
Definition handleFileUpload (read : FileRead) (a : State) : State :=
  match read with
  | ReadString result =>
      setGeneratedImageUrl None
        (setError None (setAppState MARKING (setMapImageUrl (Some result) a)))
  | ReadOther => setError (Some "Failed to read the image file.") a
  | ReadFailed => setError (Some "Error reading file.") a
  end.

(** The message of a caught value:
    [err instanceof Error ? err.message : 'An unknown error occurred.']. *)
Definition errorMessage (err : Thrown) : string :=
  match err with
  | ErrorObj message => message
  | NonError => "An unknown error occurred."
  end.

(** The body of a [try] of the two generating handlers, as a completion:
    a falsy image is turned into a thrown [Error]. *)
Definition imageOrThrow (c : Completion (option string)) : Completion string :=
  match c with
  | Returned generatedImage =>
      match truthy generatedImage with
      | Some image => Returned image
      | None =>
          Threw (ErrorObj "The AI model did not return an image. Please try again.")
      end
  | Threw e => Threw e
  end.

(** What an asynchronous handler does: the state it commits before it
    awaits the service (if it gets that far), the state it commits at the
    end, and the requests the service received. *)
Record Outcome : Type := mkOutcome {
  pending : option State;
  settled : State;
  calls : list Request
}.

(** [handleGenerationStart], up to the [await]. *)
Definition generationPending (mergedImageBase64 : string) (a : State) : State :=
  setError None
    (setAppState GENERATING (setLastMergedImage (Some mergedImageBase64) a)).

(** [handleGenerationStart], from the [await] on. *)
Definition generationSettled (c : Completion (option string)) (a : State) : State :=
  match imageOrThrow c with
  | Returned generatedImage =>
      setAppState RESULT (setGeneratedImageUrl (Some generatedImage) a)
  | Threw err =>
      setAppState MARKING
        (setError (Some ("Failed to generate view: " ++ errorMessage err)%string) a)
  end.

(** [handleGenerationStart(mergedImageBase64)]. *)
Definition handleGenerationStart (api : Api) (mergedImageBase64 : string)
    (a : State) : Outcome :=
  let a1 := generationPending mergedImageBase64 a in
  let '(c, sent) := generateStreetView api mergedImageBase64 in
  mkOutcome (Some a1) (generationSettled c a1) sent.

(** [handleRegenerate], from the [await] on. *)
Definition regenerationSettled (c : Completion (option string)) (a : State) : State :=
  match imageOrThrow c with
  | Returned generatedImage =>
      setAppState RESULT (setGeneratedImageUrl (Some generatedImage) a)
  | Threw err =>
      setAppState RESULT
        (setError (Some ("Failed to regenerate view: " ++ errorMessage err)%string) a)
  end.

(** [handleRegenerate()]. *)
Definition handleRegenerate (api : Api) (a : State) : Outcome :=
  match truthy (lastMergedImage a) with
  | Some merged =>
      let a1 := setError None (setAppState GENERATING a) in
      let '(c, sent) := generateStreetView api merged in
      mkOutcome (Some a1) (regenerationSettled c a1) sent
  | None =>
      mkOutcome None
        (setAppState MARKING
           (setError (Some "Cannot regenerate, previous image data is missing. Please try marking a spot again.") a))
        []
  end.

(** [handleRestart()]. *)
Definition handleRestart (a : State) : State :=
  setAppState MARKING (setError None (setGeneratedImageUrl None a)).

(** [handleUploadNew()]. *)
Definition handleUploadNew (a : State) : State :=
  setAppState UPLOAD
    (setError None
       (setLastMergedImage None
          (setGeneratedImageUrl None (setMapImageUrl None a)))).

End App.

(* ================================================================== *)
(** * The mounted screen *)
(* ================================================================== *)

Module Screen.

Import MapMarker.

(** ** Elements and instances

    [renderContent] returns an element tree.  React keeps the cells of a
    component instance from one render to the next only while an element
    of the same component type stays at the same position of the tree;
    otherwise the instance is unmounted, its cells are lost, and the new
    element is mounted with fresh cells. *)

Inductive CompProps : Type :=
| FileUploadP
| MapMarkerP (props : MapMarkerProps)
| ResultDisplayP (props : ResultDisplay.ResultDisplayProps)
| LoadingSpinnerP.

Inductive Element : Type :=
| EHost (tag : string) (children : list Element)
| EComp (props : CompProps)
| EText (s : string)
| ENothing.      (* [null], [false] or the empty string as a child *)

(** The cells of a component instance. *)
Inductive CompCells : Type :=
| FileUploadC (dragActive : bool)
| MapMarkerC (cells : MarkerState)
| ResultDisplayC
| LoadingSpinnerC.

Inductive Instance : Type :=
| IHost (tag : string) (children : list Instance)
| IComp (props : CompProps) (cells : CompCells)
| IText (s : string)
| INothing.

Definition sameType (p q : CompProps) : bool :=
  match p, q with
  | FileUploadP, FileUploadP => true
  | MapMarkerP _, MapMarkerP _ => true
  | ResultDisplayP _, ResultDisplayP _ => true
  | LoadingSpinnerP, LoadingSpinnerP => true
  | _, _ => false
  end.

(** The cells a component starts with. *)
Definition freshCells (p : CompProps) : CompCells :=
  match p with
  | FileUploadP => FileUploadC false
  | MapMarkerP _ => MapMarkerC MapMarker.initial
  | ResultDisplayP _ => ResultDisplayC
  | LoadingSpinnerP => LoadingSpinnerC
  end.

Fixpoint mount (e : Element) : Instance :=
  match e with
  | EHost tag children => IHost tag (map mount children)
  | EComp props => IComp props (freshCells props)
  | EText s => IText s
  | ENothing => INothing
  end.

(** Updating the mounted tree [old] to the element tree [e]. *)
Fixpoint reconcile (e : Element) (old : Instance) {struct e} : Instance :=
  match e, old with
  | EHost tag children, IHost tag0 olds =>
      if (tag =? tag0)%string then
        IHost tag
          ((fix children_ (es : list Element) (os : list Instance) : list Instance :=
              match es, os with
              | [], _ => []
              | e' :: es', [] => mount e' :: children_ es' []
              | e' :: es', o :: os' => reconcile e' o :: children_ es' os'
              end) children olds)
      else mount e
  | EComp props, IComp props0 cells =>
      if sameType props props0 then IComp props cells else mount e
  | EText s, IText _ => IText s
  | _, _ => mount e
  end.

(** ** What the orchestrator renders *)

Definition overlay (caption : string) : Element :=
  EHost "div" [EComp LoadingSpinnerP; EHost "p" [EText caption]].

(** [renderContent()]. *)
Definition renderContent (a : App.State) : Element :=
  match App.appState a with
  | UPLOAD => EComp FileUploadP
  | MARKING =>
      match truthy (App.mapImageUrl a) with
      | Some url =>
          EComp (MapMarkerP
            (mkMarkerProps url CallGenerationStart false (App.error a) CallUploadNew))
      | None => EComp FileUploadP
      end
  | GENERATING =>
      match truthy (App.generatedImageUrl a) with
      | Some generated =>
          EHost "div"
            [ EComp (ResultDisplayP
                (ResultDisplay.mkResultProps generated NoRestart NoUpload NoRegenerate
                   true None));
              overlay "Regenerating your view..." ]
      | None =>
          EHost "div"
            [ match truthy (App.mapImageUrl a) with
              | Some url =>
                  EComp (MapMarkerP (mkMarkerProps url NoGenerate true None NoUpload))
              | None => ENothing
              end;
              overlay "Generating your street view..." ]
      end
  | RESULT =>
      match truthy (App.generatedImageUrl a) with
      | Some generated =>
          EComp (ResultDisplayP
            (ResultDisplay.mkResultProps generated CallRestart CallUploadNew
               CallRegenerate false (App.error a)))
      | None => EHost "p" [EText "Something went wrong."]
      end
  end.

(** ** The running application: the orchestrator and what is mounted *)

Record Ui : Type := mkUi {
  app : App.State;
  tree : Instance
}.

Definition start : Ui := mkUi App.initial (mount (renderContent App.initial)).

(** A commit of the orchestrator's state, followed by a render. *)
Definition commit (a : App.State) (t : Instance) : Ui :=
  mkUi a (reconcile (renderContent a) t).

(** The commits of an asynchronous handler, in order. *)
Definition commitOutcome (o : App.Outcome) (t : Instance) : Ui :=
  match App.pending o with
  | Some a1 => commit (App.settled o) (tree (commit a1 t))
  | None => commit (App.settled o) t
  end.

(** The [MapMarker] that is on screen, if there is one: it is either the
    content itself or the first child of the wrapping [div]. *)
Definition marker (t : Instance) : option (MapMarkerProps * MarkerState) :=
  match t with
  | IComp (MapMarkerP props) (MapMarkerC cells) => Some (props, cells)
  | IHost _ (IComp (MapMarkerP props) (MapMarkerC cells) :: _) => Some (props, cells)
  | _ => None
  end.

(** The points of the marker on screen. *)
Definition markedPoints (t : Instance) : option (list Point) :=
  match marker t with
  | Some (_, cells) => Some (points cells)
  | None => None
  end.

(** Replacing the cells of the marker on screen. *)
Definition withMarker (cells : MarkerState) (t : Instance) : Instance :=
  match t with
  | IComp (MapMarkerP props) (MapMarkerC _) => IComp (MapMarkerP props) (MapMarkerC cells)
  | IHost tag (IComp (MapMarkerP props) (MapMarkerC _) :: rest) =>
      IHost tag (IComp (MapMarkerP props) (MapMarkerC cells) :: rest)
  | _ => t
  end.

(** The [ResultDisplay] that is on screen, if there is one. *)
Definition result (t : Instance) : option ResultDisplay.ResultDisplayProps :=
  match t with
  | IComp (ResultDisplayP props) _ => Some props
  | IHost _ (IComp (ResultDisplayP props) _ :: _) => Some props
  | _ => None
  end.

Section Events.

Variable toDataURL : Canvas -> string -> R -> string.
Variable api : Service.Api.

(** A click on the canvas of the marker, followed by the redraw effect. *)
Definition clickCanvas (rect : DOMRect) (event : MouseEvent) (u : Ui) : Ui :=
  match marker (tree u) with
  | Some (props, cells) =>
      mkUi (app u)
        (withMarker (redraw (handleCanvasClick props rect event cells)) (tree u))
  | None => u
  end.

(** A click on the Undo button. *)
Definition clickUndo (u : Ui) : Ui :=
  match marker (tree u) with
  | Some (props, cells) =>
      if undoDisabled props cells then u
      else mkUi (app u) (withMarker (redraw (handleUndo cells)) (tree u))
  | None => u
  end.

(** A click on the Generate button. *)
Definition clickGenerate (u : Ui) : Ui :=
  match marker (tree u) with
  | Some (props, cells) =>
      if generateDisabled props cells then u
      else
        let '(cells', exported) := handleGenerateClick toDataURL cells in
        let t := withMarker cells' (tree u) in
        match exported, onGenerate props with
        | Some mergedImage, CallGenerationStart =>
            commitOutcome (App.handleGenerationStart api mergedImage (app u)) t
        | _, _ => mkUi (app u) t
        end
  | None => u
  end.

(** A click on the Regenerate button of the result screen. *)
Definition clickRegenerate (u : Ui) : Ui :=
  match result (tree u) with
  | Some props =>
      if ResultDisplay.disabled props then u
      else
        match ResultDisplay.onRegenerate props with
        | CallRegenerate => commitOutcome (App.handleRegenerate api (app u)) (tree u)
        | NoRegenerate => u
        end
  | None => u
  end.

(** A click on "Try a Different Spot". *)
Definition clickRestart (u : Ui) : Ui :=
  match result (tree u) with
  | Some props =>
      if ResultDisplay.disabled props then u
      else
        match ResultDisplay.onRestart props with
        | CallRestart => commit (App.handleRestart (app u)) (tree u)
        | NoRestart => u
        end
  | None => u
  end.

(** The image of the marker on screen finishes loading. *)
Definition imageLoads (img : Image) (u : Ui) : Ui :=
  match marker (tree u) with
  | Some (_, cells) =>
      mkUi (app u) (withMarker (redraw (imageLoaded img cells)) (tree u))
  | None => u
  end.

End Events.

End Screen.

(* ================================================================== *)
(** * A session, for the examples *)
(* ================================================================== *)

Module Samples.

Import MapMarker Service App Screen.

Definition mapUrl : string := "data:image/png;base64,MAP".

(** The uploaded map, once decoded: 300 by 150 pixels. *)
Definition mapImage : Image := mkImage mapUrl 300 150.

(** The properties the orchestrator gives the marker in Marking. *)
Definition enabledProps : MapMarkerProps :=
  mkMarkerProps mapUrl CallGenerationStart false None CallUploadNew.

(** The canvas is displayed at its native size, at the origin. *)
Definition sampleRect : DOMRect := mkRect 0 0 300 150.
Definition sampleClick : MouseEvent := mkEvent 10 20.
Definition secondClick : MouseEvent := mkEvent 110 20.

Definition firstPoint : Point := toImagePoint defaultCanvas sampleRect sampleClick.
Definition secondPoint : Point := toImagePoint defaultCanvas sampleRect secondClick.
Definition twoPoints : list Point := [firstPoint; secondPoint].

(** An encoder: every canvas becomes the same JPEG data URI. *)
Definition sampleEncoder (_ : Canvas) (_ : string) (_ : R) : string :=
  "data:image/jpeg;base64,AAAA".

(** A service that answers without an image. *)
Definition emptyApi : Api := fun _ => Returned (mkResponse None).

(** A service that fails. *)
Definition failingApi : Api := fun _ => Threw (ErrorObj "503").

(** A service that answers with some text and an image. *)
Definition imageApi : Api := fun _ =>
  Returned (mkResponse (Some
    [Some [mkPart None (Some "Here is your view.");
           mkPart (Some (mkInline "image/png" "VIEW")) None]])).

(** The cells of the marker along the session: the image loads, the user
    clicks once, then a second time. *)
Definition loadedCells : MarkerState := redraw (imageLoaded mapImage MapMarker.initial).
Definition onePointCells : MarkerState :=
  redraw (handleCanvasClick enabledProps sampleRect sampleClick loadedCells).
Definition twoPointCells : MarkerState :=
  redraw (handleCanvasClick enabledProps sampleRect secondClick onePointCells).

(** The application along the session: the map is uploaded, its image
    loads, the user clicks once, then a second time. *)
Definition uploadedUi : Ui :=
  commit (handleFileUpload (ReadString mapUrl) App.initial) (tree start).
Definition loadedUi : Ui := imageLoads mapImage uploadedUi.
Definition onePointUi : Ui := clickCanvas sampleRect sampleClick loadedUi.
Definition twoPointUi : Ui := clickCanvas sampleRect secondClick onePointUi.

(** The user clicks Generate and the service answers with an image: the
    result screen, and the state of the orchestrator there. *)
Definition resultUi : Ui := clickGenerate sampleEncoder imageApi twoPointUi.

Definition sampleResult : State :=
  mkApp RESULT (Some mapUrl) (Some "data:image/png;base64,VIEW")
        (Some "data:image/jpeg;base64,AAAA") None.

End Samples.

(* ================================================================== *)
(** * What the marker shows besides the canvas *)
(* ================================================================== *)

Module MarkerView.

Import MapMarker.

(** The [instruction] line above the canvas. *)
Definition instruction (s : MarkerState) : string :=
  match List.length (points s) with
  | 0%nat => "Tap on the map to set your starting point."
  | 1%nat => "Tap again to set the direction you are looking."
  | _ => "Ready to generate your view!"
  end.

(** The error line: [{error && <p>{error}</p>}]. *)
Definition shownError (props : MapMarkerProps) : option string :=
  truthy (error props).

End MarkerView.

(* ================================================================== *)
(** * The upload screen ([FileUpload]) *)
(* ================================================================== *)

Module FileUpload.

(** A file the user offers, with what a [FileReader] will deliver for
    it. *)
Record File : Type := mkFile {
  fileName : string;
  reading : App.FileRead
}.

(** [files?.[0]], kept only when it is there. *)
Definition firstFile (files : option (list File)) : option File :=
  match files with
  | Some (file :: _) => Some file
  | _ => None
  end.

(** [handleFileChange(e)]: the file [onFileUpload] is called with, if it
    is called. *)
Definition handleFileChange (files : option (list File)) : option File :=
  firstFile files.

(** [handleDrag(e)] on the [dragActive] cell; [type] is [e.type]. *)
Definition handleDrag (type : string) (dragActive : bool) : bool :=
  if (type =? "dragenter")%string || (type =? "dragover")%string then true
  else if (type =? "dragleave")%string then false
  else dragActive.

(** [handleDrop(e)]: the [dragActive] cell afterwards and the file
    [onFileUpload] is called with, if it is called. *)
Definition handleDrop (files : option (list File)) (dragActive : bool)
  : bool * option File :=
  (false, firstFile files).

End FileUpload.

(* ================================================================== *)
(** * Events of a session *)
(* ================================================================== *)

Module Session.

Import MapMarker App Screen FileUpload.

(** The [FileUpload] that is on screen, if there is one: its
    [dragActive] cell. *)
Definition uploader (t : Instance) : option bool :=
  match t with
  | IComp FileUploadP (FileUploadC dragActive) => Some dragActive
  | _ => None
  end.

Definition withUploader (dragActive : bool) (t : Instance) : Instance :=
  match t with
  | IComp FileUploadP (FileUploadC _) => IComp FileUploadP (FileUploadC dragActive)
  | _ => t
  end.

(** [onFileUpload(file)] as the orchestrator binds it, the reader
    delivering at once. *)
Definition onFileUpload (file : File) (u : Ui) : Ui :=
  commit (handleFileUpload (reading file) (app u)) (tree u).

(** A drag event over the upload area. *)
Definition drag (type : string) (u : Ui) : Ui :=
  match uploader (tree u) with
  | Some dragActive =>
      mkUi (app u) (withUploader (handleDrag type dragActive) (tree u))
  | None => u
  end.

(** A drop on the upload area. *)
Definition drop (files : option (list File)) (u : Ui) : Ui :=
  match uploader (tree u) with
  | Some dragActive =>
      let '(dragActive', file) := handleDrop files dragActive in
      let u' := mkUi (app u) (withUploader dragActive' (tree u)) in
      match file with
      | Some f => onFileUpload f u'
      | None => u'
      end
  | None => u
  end.

(** A choice in the file dialog. *)
Definition choose (files : option (list File)) (u : Ui) : Ui :=
  match uploader (tree u) with
  | Some _ =>
      match handleFileChange files with
      | Some f => onFileUpload f u
      | None => u
      end
  | None => u
  end.

(** A click on "Upload New Map" of the marker (a button that is never
    disabled) or on "Upload a New Map" of the result screen. *)
Definition clickUploadNew (u : Ui) : Ui :=
  match marker (tree u) with
  | Some (props, _) =>
      match MapMarker.onUploadNew props with
      | CallUploadNew => commit (handleUploadNew (app u)) (tree u)
      | NoUpload => u
      end
  | None =>
      match result (tree u) with
      | Some props =>
          if ResultDisplay.disabled props then u
          else
            match ResultDisplay.onUploadNew props with
            | CallUploadNew => commit (handleUploadNew (app u)) (tree u)
            | NoUpload => u
            end
      | None => u
      end
  end.

(** What can happen to the application.  A file read, and the answer of
    the service to a request, arrive before the next event. *)
Inductive Event : Type :=
| Drag (type : string)
| Drop (files : option (list File))
| Choose (files : option (list File))
| ImageLoad (img : Image)
| CanvasClick (rect : DOMRect) (event : MouseEvent)
| UndoClick
| GenerateClick (api : Service.Api)
| UploadNewClick
| RegenerateClick (api : Service.Api)
| RestartClick.

Section Dispatch.

Variable toDataURL : Canvas -> string -> R -> string.

Definition dispatch (u : Ui) (ev : Event) : Ui :=
  match ev with
  | Drag type => drag type u
  | Drop files => drop files u
  | Choose files => choose files u
  | ImageLoad img => imageLoads img u
  | CanvasClick rect event => clickCanvas rect event u
  | UndoClick => clickUndo u
  | GenerateClick api => clickGenerate toDataURL api u
  | UploadNewClick => clickUploadNew u
  | RegenerateClick api => clickRegenerate api u
  | RestartClick => clickRestart u
  end.

Definition runEvents (evs : list Event) (u : Ui) : Ui :=
  fold_left dispatch evs u.

End Dispatch.

(** The three screens the application rests on between events, with what
    the orchestrator holds on each.  The upload area is shown in the
    Upload state, and in Marking when the map read was the empty
    string. *)
Inductive AtRest : Ui -> Prop :=
| OnUpload (a : App.State) (dragActive : bool) :
    (appState a = UPLOAD /\ mapImageUrl a = None /\ lastMergedImage a = None
     \/ appState a = MARKING /\ truthy (mapImageUrl a) = None) ->
    generatedImageUrl a = None ->
    AtRest (mkUi a (IComp FileUploadP (FileUploadC dragActive)))
| OnMarking (a : App.State) (url : string) (cells : MarkerState) :
    appState a = MARKING ->
    truthy (mapImageUrl a) = Some url ->
    generatedImageUrl a = None ->
    (List.length (points cells) <= 2)%nat ->
    AtRest (mkUi a
      (IComp (MapMarkerP
                (mkMarkerProps url CallGenerationStart false (App.error a) CallUploadNew))
             (MapMarkerC cells)))
| OnResult (a : App.State) (url generated merged subtype payload : string) :
    appState a = RESULT ->
    truthy (mapImageUrl a) = Some url ->
    truthy (generatedImageUrl a) = Some generated ->
    lastMergedImage a = Some merged ->
    Service.matchesPattern merged subtype payload ->
    AtRest (mkUi a
      (IComp (ResultDisplayP
                (ResultDisplay.mkResultProps generated CallRestart CallUploadNew
                   CallRegenerate false (App.error a)))
             ResultDisplayC)).

End Session.

(* ================================================================== *)
(** * Properties of the arrow geometry renderer *)
(* ================================================================== *)

Module GeometryFacts.

Import Geometry.

(** The zero-length guard: with identical points nothing is issued. *)
Lemma drawArrow_same (p : Point) : drawArrow p p = [].
Proof.
  unfold drawArrow.
  destruct (Req_dec_T _ 0) as [_ | Hn]; [ reflexivity | ].
  exfalso. apply Hn.
  replace ((px p - px p) * (px p - px p) + (py p - py p) * (py p - py p))
    with 0 by ring.
  apply sqrt_0.
Qed.

End GeometryFacts.

(* ================================================================== *)
(** * Properties of the arrow renderer in double precision *)
(* ================================================================== *)

Module DoublesFacts.

Import PrimFloat Doubles.
Local Open Scope float_scope.





End DoublesFacts.

(* ================================================================== *)
(** * Properties of the marking component *)
(* ================================================================== *)

Module MapMarkerFacts.

Import Geometry MapMarker Samples.

Lemma removelast_length (l : list Point) :
  List.length (removelast l) = pred (List.length l).
Proof.
  induction l as [ | a l IH]; [ reflexivity | ].
  destruct l as [ | b l']; [ reflexivity | ].
  change (removelast (a :: b :: l')) with (a :: removelast (b :: l')).
  simpl List.length in *. rewrite IH. reflexivity.
Qed.

(** A click with two points stored, or on a disabled marker, changes
    nothing. *)
Lemma click_ignored props rect event s :
  (2 <= List.length (points s))%nat \/ disabled props = true ->
  handleCanvasClick props rect event s = s.
Proof.
  intros [H | H]; unfold handleCanvasClick.
  - apply Nat.leb_le in H. rewrite H. reflexivity.
  - rewrite H, orb_true_r. reflexivity.
Qed.

(** Any other click appends the mapped point. *)
Lemma click_accepted props rect event s canvas :
  (List.length (points s) < 2)%nat ->
  disabled props = false ->
  canvasRef s = Some canvas ->
  handleCanvasClick props rect event s =
    setPoints (fun prevPoints => prevPoints ++ [toImagePoint canvas rect event]) s.
Proof.
  intros Hl Hd Hc. unfold handleCanvasClick.
  apply Nat.leb_gt in Hl. rewrite Hl, Hd, Hc. reflexivity.
Qed.

Lemma step_canvas props s o : canvasRef (step props s o) = canvasRef s.
Proof.
  destruct o as [rect event | ]; simpl; [ | reflexivity ].
  unfold handleCanvasClick.
  destruct (_ || _); [ reflexivity | ].
  destruct (canvasRef s) eqn:E; simpl; exact E.
Qed.

Lemma step_bound props s o :
  (List.length (points s) <= 2)%nat ->
  (List.length (points (step props s o)) <= 2)%nat.
Proof.
  intro H. destruct o as [rect event | ]; simpl.
  - unfold handleCanvasClick.
    destruct (2 <=? List.length (points s))%nat eqn:E; simpl; [ exact H | ].
    destruct (disabled props); [ exact H | ].
    destruct (canvasRef s); [ | exact H ].
    simpl. rewrite length_app. simpl. apply Nat.leb_gt in E. lia.
  - unfold dropLast. rewrite removelast_length. lia.
Qed.

Lemma run_bound props ops : forall s,
  (List.length (points s) <= 2)%nat ->
  (List.length (points (run props ops s)) <= 2)%nat.
Proof.
  induction ops as [ | o ops IH]; intros s H; [ exact H | ].
  apply IH, step_bound, H.
Qed.

Lemma adds_cons o ops :
  Z.of_nat (adds (o :: ops)) = ((if isAdd o then 1 else 0) + Z.of_nat (adds ops))%Z.
Proof. unfold adds; simpl. destruct (isAdd o); simpl List.length; lia. Qed.

Lemma undos_cons o ops :
  Z.of_nat (undos (o :: ops)) = ((if isAdd o then 0 else 1) + Z.of_nat (undos ops))%Z.
Proof. unfold undos; simpl. destruct (isAdd o); simpl List.length; lia. Qed.

(** The length after an orderly sequence, from any state: [k] counts the
    [Add]s that were dropped before the sequence starts. *)
Lemma orderly_length props (Hen : disabled props = false) ops :
  forall s dropped k,
    canvasRef s <> None ->
    (List.length (points s) <= 2)%nat ->
    (0 <= k)%Z ->
    (dropped = false -> k = 0%Z) ->
    (dropped = true -> List.length (points s) = 2%nat) ->
    orderly (List.length (points s)) dropped ops = true ->
    Z.of_nat (List.length (points (run props ops s))) =
      Z.min (Z.of_nat (List.length (points s)) + k
             + Z.of_nat (adds ops) - Z.of_nat (undos ops)) 2.
Proof.
  induction ops as [ | o ops IH]; intros s dropped k Hc Hn Hk Hf Ht Ho.
  - unfold run, adds, undos; simpl.
    destruct dropped; [ rewrite (Ht eq_refl) | rewrite (Hf eq_refl) ]; lia.
  - rewrite adds_cons, undos_cons.
    change (run props (o :: ops) s) with (run props ops (step props s o)).
    destruct o as [rect event | ]; simpl isAdd; cbv iota.
    + simpl in Ho.
      destruct (Nat.ltb_spec (List.length (points s)) 2) as [Hlt | Hge].
      * destruct (canvasRef s) as [canvas | ] eqn:Ec; [ | congruence ].
        assert (Hd : dropped = false)
          by (destruct dropped; [ specialize (Ht eq_refl); lia | reflexivity ]).
        subst dropped. specialize (Hf eq_refl). subst k.
        assert (Hs : List.length (points (step props s (Add rect event)))
                     = S (List.length (points s))).
        { simpl. rewrite (click_accepted _ _ _ _ canvas Hlt Hen Ec). simpl.
          rewrite length_app. simpl. lia. }
        rewrite (IH (step props s (Add rect event)) false 0%Z);
          rewrite ?Hs, ?step_canvas; try lia; try congruence.
      * assert (Hs : step props s (Add rect event) = s)
          by (apply click_ignored; left; exact Hge).
        rewrite Hs.
        rewrite (IH s true (k + 1)%Z); try lia; try assumption; try discriminate.
    + simpl in Ho.
      destruct (Nat.eqb_spec (List.length (points s)) 0) as [H0 | H0];
        [ discriminate | ].
      destruct dropped; [ discriminate | ]. simpl in Ho.
      specialize (Hf eq_refl). subst k.
      assert (Hs : List.length (points (step props s Undo))
                   = pred (List.length (points s))).
      { simpl. unfold dropLast. apply removelast_length. }
      rewrite (IH (step props s Undo) false 0%Z);
        rewrite ?Hs, ?step_canvas; try lia; try congruence; try assumption.
Qed.

(** A sequence of [Add]s alone is orderly. *)
Lemma adds_orderly (ops : list Op) : forall n dropped,
  forallb isAdd ops = true -> orderly n dropped ops = true.
Proof.
  induction ops as [ | o ops IH]; intros n dropped H; [ reflexivity | ].
  destruct o as [rect event | ]; [ | discriminate H ].
  simpl in *. destruct (n <? 2)%nat; apply IH, H.
Qed.

(** On a disabled marker no sequence stores a point. *)
Lemma run_disabled props (Hd : disabled props = true) ops : forall s,
  points s = [] -> points (run props ops s) = [].
Proof.
  induction ops as [ | o ops IH]; intros s H; [ exact H | ].
  change (run props (o :: ops) s) with (run props ops (step props s o)).
  apply IH. destruct o as [rect event | ]; simpl.
  - rewrite click_ignored by (right; exact Hd). exact H.
  - rewrite H. reflexivity.
Qed.

(** C2, as the code has it.  Whatever the sequence of Add and Undo
    operations on a freshly mounted marker, the stored PointSet never has
    more than two points; an Add with two points stored, or on a disabled
    marker, returns the state it was given.  On an enabled marker the
    length is [min(adds - undos, 2)] for the orderly sequences, those in
    which every Undo finds a point to remove and no Undo follows an Add
    that found the set full; the sequences of Adds alone are orderly.  On
    a disabled marker the PointSet stays empty, whatever the sequence. *)
Theorem point_capture_length (props : MapMarkerProps) (ops : list Op) :
  (List.length (points (run props ops initial)) <= 2)%nat /\
  (forall s rect event,
     (2 <= List.length (points s))%nat \/ disabled props = true ->
     handleCanvasClick props rect event s = s) /\
  (disabled props = false ->
   orderly 0 false ops = true ->
   Z.of_nat (List.length (points (run props ops initial))) =
     Z.min (Z.of_nat (adds ops) - Z.of_nat (undos ops)) 2) /\
  (forallb isAdd ops = true -> orderly 0 false ops = true) /\
  (disabled props = true -> points (run props ops initial) = []).
Proof.
  split; [ | split; [ | split; [ | split ] ] ].
  - apply run_bound. simpl. lia.
  - intros s rect event H. apply click_ignored, H.
  - intros Hen Ho.
    rewrite (orderly_length props Hen ops initial false 0%Z).
    + simpl List.length. f_equal; lia.
    + discriminate.
    + simpl. lia.
    + lia.
    + reflexivity.
    + discriminate.
    + exact Ho.
  - apply adds_orderly.
  - intro Hd. apply (run_disabled props Hd). reflexivity.
Qed.

(** C2 on the sequence Add, Add, Undo, Add, Add: four Adds, one Undo, two
    points. *)
Lemma point_capture_length_witness :
  let ops := [Add sampleRect sampleClick; Add sampleRect sampleClick; Undo;
              Add sampleRect sampleClick; Add sampleRect sampleClick] in
  disabled enabledProps = false /\
  orderly 0 false ops = true /\
  Z.of_nat (List.length (points (run enabledProps ops initial))) =
    Z.min (Z.of_nat (adds ops) - Z.of_nat (undos ops)) 2.
Proof.
  intro ops. split; [ reflexivity | split; [ reflexivity | ] ].
  apply (proj1 (proj2 (proj2 (point_capture_length enabledProps ops))));
    reflexivity.
Defined.

(** C2, as stated, fails: after Add, Add, Add, Undo one point is stored,
    while [min(adds - undos, 2) = min(3 - 1, 2) = 2]. *)
Lemma point_capture_length_counterexample :
  let ops := [Add sampleRect sampleClick; Add sampleRect sampleClick;
              Add sampleRect sampleClick; Undo] in
  List.length (points (run enabledProps ops initial)) = 1%nat /\
  Z.min (Z.of_nat (adds ops) - Z.of_nat (undos ops)) 2 = 2%Z /\
  Z.of_nat (List.length (points (run enabledProps ops initial))) <>
    Z.min (Z.of_nat (adds ops) - Z.of_nat (undos ops)) 2.
Proof.
  intro ops. split; [ reflexivity | split; [ reflexivity | ] ].
  change (1%Z <> 2%Z). discriminate.
Qed.

(** The redraw effect sizes the canvas buffer to the decoded image. *)
Lemma redraw_native_size s canvas image :
  canvasRef s = Some canvas ->
  imageRef s = Some image ->
  fst (imageSize s) <> 0%Z ->
  exists canvas',
    canvasRef (redraw s) = Some canvas' /\
    width canvas' = naturalWidth image /\
    height canvas' = naturalHeight image.
Proof.
  intros Hc Hi Hz. unfold redraw. rewrite Hc, Hi.
  apply Z.eqb_neq in Hz. rewrite Hz.
  destruct (points s) as [ | p0 [ | p1 [ | p2 rest]]];
    eexists; (split; [ reflexivity | split; reflexivity ]).
Qed.

(** C6.  The coordinate mapper of [handleCanvasClick] computes
    [x = (clientX - rect.left) * (canvas.width / rect.width)] and
    [y = (clientY - rect.top) * (canvas.height / rect.height)], where the
    canvas buffer has the native size of the image once the redraw effect
    has run, and an accepted click stores exactly that point.  When both
    scale factors are 1 the point is the event position minus the origin
    of the rectangle; this is the case when the displayed size equals the
    (non-zero) native size. *)
Theorem coordinate_mapper (canvas : Canvas) (rect : DOMRect) (event : MouseEvent) :
  toImagePoint canvas rect event =
    mkPoint ((clientX event - left rect) * (IZR (width canvas) / rectWidth rect))
            ((clientY event - top rect) * (IZR (height canvas) / rectHeight rect)) /\
  (forall props s,
     disabled props = false ->
     (List.length (points s) < 2)%nat ->
     canvasRef s = Some canvas ->
     points (handleCanvasClick props rect event s) =
       points s ++ [toImagePoint canvas rect event]) /\
  (forall s image,
     canvasRef s = Some canvas ->
     imageRef s = Some image ->
     fst (imageSize s) <> 0%Z ->
     exists canvas',
       canvasRef (redraw s) = Some canvas' /\
       width canvas' = naturalWidth image /\
       height canvas' = naturalHeight image) /\
  (IZR (width canvas) / rectWidth rect = 1 ->
   IZR (height canvas) / rectHeight rect = 1 ->
   toImagePoint canvas rect event =
     mkPoint (clientX event - left rect) (clientY event - top rect)) /\
  (rectWidth rect = IZR (width canvas) ->
   rectHeight rect = IZR (height canvas) ->
   width canvas <> 0%Z ->
   height canvas <> 0%Z ->
   toImagePoint canvas rect event =
     mkPoint (clientX event - left rect) (clientY event - top rect)).
Proof.
  split; [ reflexivity | split; [ | split; [ | split ] ] ].
  - intros props s Hd Hl Hc.
    rewrite (click_accepted props rect event s canvas Hl Hd Hc). reflexivity.
  - intros s image. apply redraw_native_size.
  - intros Hx Hy. unfold toImagePoint. rewrite Hx, Hy. f_equal; ring.
  - intros Hw Hh Hwz Hhz. unfold toImagePoint. rewrite Hw, Hh.
    f_equal; field; apply not_0_IZR; assumption.
Qed.

(** C6 on a 300 by 150 canvas displayed at 300 by 150 with its origin at
    (5, 7): a click at (15, 27) is the pixel (10, 20). *)
Lemma coordinate_mapper_witness :
  let canvas := defaultCanvas in
  let rect := mkRect 5 7 300 150 in
  let event := mkEvent 15 27 in
  (rectWidth rect = IZR (width canvas) /\ rectHeight rect = IZR (height canvas) /\
   width canvas <> 0%Z /\ height canvas <> 0%Z) /\
  toImagePoint canvas rect event = mkPoint (15 - 5) (27 - 7).
Proof.
  intros canvas rect event.
  assert (Hw : width canvas <> 0%Z) by (simpl; lia).
  assert (Hh : height canvas <> 0%Z) by (simpl; lia).
  split.
  - repeat split; try reflexivity; assumption.
  - exact (proj2 (proj2 (proj2 (proj2 (coordinate_mapper canvas rect event))))
             eq_refl eq_refl Hw Hh).
Defined.

(** C7.  When the second click maps to the point already stored, the
    point is recorded all the same (the PointSet has two equal points),
    and the arrow renderer issues no command at all for them: the guard
    on the length returns before the first division and before any path
    or stroke command.  The redrawn preview then holds the base image
    alone. *)
Theorem zero_length_arrow (props : MapMarkerProps) (rect : DOMRect)
    (event : MouseEvent) (s : MarkerState) (canvas : Canvas) (p0 : Point) :
  disabled props = false ->
  canvasRef s = Some canvas ->
  points s = [p0] ->
  toImagePoint canvas rect event = p0 ->
  let s' := handleCanvasClick props rect event s in
  points s' = [p0; p0] /\
  drawArrow p0 p0 = [] /\
  strokes (drawArrow p0 p0) = [] /\
  filter isLineCmd (drawArrow p0 p0) = [] /\
  (forall image,
     imageRef s = Some image ->
     fst (imageSize s) <> 0%Z ->
     option_map ops (canvasRef (redraw s')) =
       Some [ClearRect 0 0 (IZR (naturalWidth image)) (IZR (naturalHeight image));
             DrawImage image 0 0]).
Proof.
  intros Hd Hc Hp Hm s'.
  assert (Hs : s' = setPoints (fun prev => prev ++ [p0]) s).
  { unfold s'. rewrite (click_accepted props rect event s canvas); try assumption.
    - rewrite Hm. reflexivity.
    - rewrite Hp. simpl. lia. }
  assert (Hpts : points s' = [p0; p0]) by (rewrite Hs; simpl; rewrite Hp; reflexivity).
  rewrite (GeometryFacts.drawArrow_same p0).
  repeat split; try reflexivity; try exact Hpts.
  intros image Hi Hz.
  unfold redraw. rewrite Hpts.
  replace (canvasRef s') with (Some canvas) by (rewrite Hs; simpl; symmetry; exact Hc).
  replace (imageRef s') with (Some image) by (rewrite Hs; simpl; symmetry; exact Hi).
  replace (imageSize s') with (imageSize s) by (rewrite Hs; reflexivity).
  apply Z.eqb_neq in Hz. rewrite Hz.
  rewrite (GeometryFacts.drawArrow_same p0). reflexivity.
Qed.

(** C7 on the marker of the session after the first click, clicked at
    the same place again. *)
Lemma zero_length_arrow_witness :
  (disabled enabledProps = false /\
   (exists canvas,
      canvasRef onePointCells = Some canvas /\
      toImagePoint canvas sampleRect sampleClick = firstPoint) /\
   points onePointCells = [firstPoint]) /\
  points (handleCanvasClick enabledProps sampleRect sampleClick onePointCells) =
    [firstPoint; firstPoint].
Proof.
  split.
  - split; [ reflexivity | split; [ | reflexivity ] ].
    eexists. split; reflexivity.
  - refine (proj1 (zero_length_arrow enabledProps sampleRect sampleClick
                     onePointCells _ firstPoint eq_refl _ eq_refl _));
      reflexivity.
Defined.

End MapMarkerFacts.

(* ================================================================== *)
(** * Properties of the image service *)
(* ================================================================== *)

Module ServiceFacts.

Import Service.

Lemma stripPrefix_app (p r : string) : stripPrefix p (p ++ r) = Some r.
Proof.
  induction p as [ | a p IH]; simpl; [ reflexivity | ].
  rewrite Ascii.eqb_refl. exact IH.
Qed.

Lemma stripPrefix_some (p : string) : forall s r,
  stripPrefix p s = Some r -> s = (p ++ r)%string.
Proof.
  induction p as [ | a p IH]; intros s r H; simpl in *.
  - congruence.
  - destruct s as [ | b s]; [ discriminate | ].
    destruct (Ascii.eqb a b) eqn:E; [ | discriminate ].
    apply Ascii.eqb_eq in E. subst b. f_equal. apply IH, H.
Qed.

Lemma spanLower_split (s : string) :
  s = (fst (spanLower s) ++ snd (spanLower s))%string /\
  allChars isLower (fst (spanLower s)) = true.
Proof.
  induction s as [ | c s [IH1 IH2]]; simpl; [ split; reflexivity | ].
  destruct (isLower c) eqn:E.
  - destruct (spanLower s) as [run tl]; simpl in *.
    rewrite E, IH2. split; [ f_equal; exact IH1 | reflexivity ].
  - split; reflexivity.
Qed.

Lemma spanLower_run (sub : string) (c : ascii) (tl : string) :
  allChars isLower sub = true ->
  isLower c = false ->
  spanLower (sub ++ String c tl) = (sub, String c tl).
Proof.
  intros Hs Hc. induction sub as [ | a sub IH]; simpl in *.
  - rewrite Hc. reflexivity.
  - apply andb_true_iff in Hs as [Ha Hs]. rewrite Ha, (IH Hs). reflexivity.
Qed.

(** The matcher finds a match exactly when the string has the shape the
    pattern describes, and then returns its two groups. *)
Lemma matchDataUri_spec (s mime payload : string) :
  matchDataUri s = Some (mime, payload) <->
  exists subtype,
    mime = ("image/" ++ subtype)%string /\ matchesPattern s subtype payload.
Proof.
  unfold matchDataUri, matchesPattern. split.
  - destruct (stripPrefix "data:image/" s) as [afterSlash | ] eqn:E1;
      [ | discriminate ].
    apply stripPrefix_some in E1.
    destruct (spanLower_split afterSlash) as [E2 E3].
    destruct (spanLower afterSlash) as [subtype afterSubtype]; simpl in E2, E3.
    destruct subtype as [ | a subtype]; [ discriminate | ].
    destruct (stripPrefix ";base64," afterSubtype) as [rest | ] eqn:E4;
      [ | discriminate ].
    apply stripPrefix_some in E4.
    destruct (allChars _ rest) eqn:E5; [ | discriminate ].
    intro H. injection H as Hm Hp. subst mime rest.
    exists (String a subtype). split; [ reflexivity | ].
    repeat split; try assumption; try discriminate.
    rewrite E1, E2, E4. reflexivity.
  - intros [subtype [Hm [Hs [Hne [Hl Hp]]]]]. subst s mime.
    rewrite (stripPrefix_app "data:image/").
    change (";base64," ++ payload)%string
      with (String ";" ("base64," ++ payload)).
    rewrite spanLower_run by (assumption || reflexivity).
    destruct subtype as [ | a subtype]; [ congruence | ].
    change (String ";" ("base64," ++ payload))
      with (";base64," ++ payload)%string.
    rewrite stripPrefix_app, Hp. reflexivity.
Qed.

Lemma no_match (s : string) :
  (forall subtype payload, ~ matchesPattern s subtype payload) ->
  matchDataUri s = None.
Proof.
  intro H. destruct (matchDataUri s) as [[mime payload] | ] eqn:E; [ | reflexivity ].
  apply matchDataUri_spec in E as [subtype [_ Hm]].
  exfalso. exact (H subtype payload Hm).
Qed.

(** A string the matcher rejects has no decomposition of the pattern's
    shape. *)
Lemma rejected_has_no_shape (s : string) :
  matchDataUri s = None ->
  forall subtype payload, ~ matchesPattern s subtype payload.
Proof.
  intros E subtype payload Hm.
  assert (H : matchDataUri s = Some (("image/" ++ subtype)%string, payload))
    by (apply matchDataUri_spec; exists subtype; split; [ reflexivity | exact Hm ]).
  rewrite E in H. discriminate H.
Qed.

(** The canvas export, a JPEG data URI, is accepted. *)
Example jpeg_accepted :
  base64ToInlineData "data:image/jpeg;base64,AAAA" =
    Returned (mkInline "image/jpeg" "AAAA").
Proof. reflexivity. Qed.

Example svg_rejected :
  base64ToInlineData "data:image/svg+xml;base64,AAAA" =
    Threw (ErrorObj "Invalid base64 string format").
Proof. reflexivity. Qed.

Example uppercase_rejected :
  base64ToInlineData "data:image/PNG;base64,AAAA" =
    Threw (ErrorObj "Invalid base64 string format").
Proof. reflexivity. Qed.

Example plain_text_rejected :
  base64ToInlineData "not a data URI" =
    Threw (ErrorObj "Invalid base64 string format").
Proof. reflexivity. Qed.

(** At most one request goes out per call. *)
Lemma generateStreetView_one_call (api : Api) (s : string) :
  (List.length (snd (generateStreetView api s)) <= 1)%nat.
Proof.
  unfold generateStreetView.
  destruct (base64ToInlineData s) as [d | e]; [ | simpl; lia ].
  destruct (api _); simpl; lia.
Qed.

End ServiceFacts.

(* ================================================================== *)
(** * Properties of the orchestrator *)
(* ================================================================== *)

Module OrchestratorFacts.

Import Service App Screen Samples.

Lemma handleRegenerate_calls (api : Api) (a : State) :
  (List.length (calls (handleRegenerate api a)) <= 1)%nat.
Proof.
  unfold handleRegenerate.
  destruct (truthy (lastMergedImage a)) as [merged | ]; [ | simpl; lia ].
  pose proof (ServiceFacts.generateStreetView_one_call api merged) as H.
  destruct (generateStreetView api merged) as [c sent]. exact H.
Qed.

(** C3.  A regenerate without a cached artifact ([lastMergedImage] is
    [null], or falsy as the empty string is) commits one state: the error
    "Cannot regenerate, previous image data is missing. Please try
    marking a spot again." and the Marking screen, everything else as it
    was.  It never enters Generating and sends nothing to the external
    service; and whatever the state, one trigger sends at most one
    request. *)
Theorem regenerate_without_artifact (api : Api) :
  (forall a : State, (List.length (calls (handleRegenerate api a)) <= 1)%nat) /\
  (forall a : State,
     truthy (lastMergedImage a) = None ->
     let o := handleRegenerate api a in
     pending o = None /\
     calls o = [] /\
     appState (settled o) = MARKING /\
     error (settled o) =
       Some "Cannot regenerate, previous image data is missing. Please try marking a spot again." /\
     mapImageUrl (settled o) = mapImageUrl a /\
     generatedImageUrl (settled o) = generatedImageUrl a /\
     lastMergedImage (settled o) = lastMergedImage a).
Proof.
  split; [ apply handleRegenerate_calls | ].
  intros a H o. unfold o, handleRegenerate. rewrite H. simpl.
  repeat split; reflexivity.
Qed.

(** C3 on the result screen of the session after the cached artifact was
    cleared. *)
Lemma regenerate_without_artifact_witness :
  let a := setLastMergedImage None sampleResult in
  truthy (lastMergedImage a) = None /\
  appState (settled (handleRegenerate emptyApi a)) = MARKING /\
  calls (handleRegenerate emptyApi a) = [].
Proof.
  intro a.
  pose proof (proj2 (regenerate_without_artifact emptyApi) a eq_refl) as H.
  split; [ reflexivity | split ].
  - exact (proj1 (proj2 (proj2 H))).
  - exact (proj1 (proj2 H)).
Defined.

Lemma reconcile_comp (p : CompProps) (t : Instance) :
  exists cells, reconcile (EComp p) t = IComp p cells.
Proof.
  destruct t as [tag kids | p0 cells | s | ]; simpl;
    try (eexists; reflexivity).
  destruct (sameType p p0); eexists; reflexivity.
Qed.

Lemma result_of_commit (a : State) (t : Instance) (props : ResultDisplay.ResultDisplayProps) :
  renderContent a = EComp (ResultDisplayP props) ->
  result (tree (commit a t)) = Some props.
Proof.
  intro H. unfold commit; simpl. rewrite H.
  destruct (reconcile_comp (ResultDisplayP props) t) as [cells E].
  rewrite E. reflexivity.
Qed.

(** A regenerate whose [try] body ends in a throw: the [catch] clause. *)
Lemma regenerate_caught (api : Api) (a : State) (merged image : string)
    (err : Thrown) :
  truthy (lastMergedImage a) = Some merged ->
  truthy (generatedImageUrl a) = Some image ->
  imageOrThrow (fst (generateStreetView api merged)) = Threw err ->
  let o := handleRegenerate api a in
  let message := ("Failed to regenerate view: " ++ errorMessage err)%string in
  let shown :=
    ResultDisplay.mkResultProps image CallRestart CallUploadNew CallRegenerate
      false (Some message) in
  appState (settled o) = RESULT /\
  error (settled o) = Some message /\
  generatedImageUrl (settled o) = generatedImageUrl a /\
  lastMergedImage (settled o) = lastMergedImage a /\
  renderContent (settled o) = EComp (ResultDisplayP shown) /\
  (forall t, result (tree (commitOutcome o t)) = Some shown) /\
  ResultDisplay.shownImage shown = image /\
  ResultDisplay.shownError shown = Some message.
Proof.
  intros Hm Hg Hf o message shown.
  assert (Ho : o = mkOutcome (Some (setError None (setAppState GENERATING a)))
                 (setAppState RESULT
                    (setError (Some message) (setError None (setAppState GENERATING a))))
                 (snd (generateStreetView api merged))).
  { unfold o, handleRegenerate. rewrite Hm.
    destruct (generateStreetView api merged) as [c sent]; simpl in *.
    unfold regenerationSettled. rewrite Hf. reflexivity. }
  assert (Hr : renderContent (settled o) = EComp (ResultDisplayP shown)).
  { rewrite Ho. unfold renderContent; simpl. rewrite Hg. reflexivity. }
  rewrite Ho in *; simpl.
  repeat split; try reflexivity; try exact Hr.
  intro t. unfold commitOutcome; simpl.
  apply result_of_commit. exact Hr.
Qed.

(** C4.  A regenerate is triggered while a generated image is stored and
    the cached artifact is present.  Whenever the attempt fails the
    handler ends in Result with an error set, the stored image and the
    cached artifact untouched, and the screen is the result display
    showing that image with the error as its banner.  The error is
    - "Failed to regenerate view: The AI model did not return an image.
      Please try again." when the service returns no image, which it does
      when the answer of the external model has no part with inline data
      in its first candidate;
    - "Failed to regenerate view: " followed by the message of the error
      when the service throws one, which is "Gemini API Error: " and the
      message of the error the external model threw, "An unknown error
      occurred while contacting the Gemini API." when it threw something
      else, and "Gemini API Error: Invalid base64 string format" when the
      cached artifact is not an image data URI (the model is not asked
      then).
    The [catch] clause would turn a thrown value that is no [Error] into
    "Failed to regenerate view: An unknown error occurred.", in Result
    and with the image kept as well. *)
Theorem regenerate_failure_keeps_result (api : Api) (a : State)
    (merged image : string) :
  truthy (lastMergedImage a) = Some merged ->
  truthy (generatedImageUrl a) = Some image ->
  let o := handleRegenerate api a in
  let shown (message : string) :=
    ResultDisplay.mkResultProps image CallRestart CallUploadNew CallRegenerate
      false (Some message) in
  let kept (message : string) :=
    appState (settled o) = RESULT /\
    error (settled o) = Some message /\
    generatedImageUrl (settled o) = generatedImageUrl a /\
    lastMergedImage (settled o) = lastMergedImage a /\
    renderContent (settled o) = EComp (ResultDisplayP (shown message)) /\
    (forall t, result (tree (commitOutcome o t)) = Some (shown message)) /\
    ResultDisplay.shownImage (shown message) = image /\
    ResultDisplay.shownError (shown message) = Some message in
  (fst (generateStreetView api merged) = Returned None ->
   kept "Failed to regenerate view: The AI model did not return an image. Please try again.") /\
  (forall reason : string,
     fst (generateStreetView api merged) = Threw (ErrorObj reason) ->
     kept ("Failed to regenerate view: " ++ reason)%string) /\
  (matchDataUri merged = None ->
   kept "Failed to regenerate view: Gemini API Error: Invalid base64 string format") /\
  (forall d : InlineData,
     base64ToInlineData merged = Returned d ->
     let request := mkRequest "gemini-2.5-flash-image-preview" d PROMPT in
     (forall response : Response,
        api request = Returned response ->
        firstImage (firstParts response) = None ->
        kept "Failed to regenerate view: The AI model did not return an image. Please try again.") /\
     (forall reason : string,
        api request = Threw (ErrorObj reason) ->
        kept ("Failed to regenerate view: Gemini API Error: " ++ reason)%string) /\
     (api request = Threw NonError ->
      kept "Failed to regenerate view: An unknown error occurred while contacting the Gemini API.")) /\
  (let s := regenerationSettled (Threw NonError)
              (setError None (setAppState GENERATING a)) in
   appState s = RESULT /\
   error s = Some "Failed to regenerate view: An unknown error occurred." /\
   generatedImageUrl s = generatedImageUrl a).
Proof.
  intros Hm Hg o shown kept.
  assert (Hc : forall err,
             imageOrThrow (fst (generateStreetView api merged)) = Threw err ->
             kept ("Failed to regenerate view: " ++ errorMessage err)%string).
  { intros err He. exact (regenerate_caught api a merged image err Hm Hg He). }
  split; [ | split; [ | split; [ | split ] ] ].
  - intro H.
    apply (Hc (ErrorObj "The AI model did not return an image. Please try again.")).
    rewrite H. reflexivity.
  - intros reason H. apply (Hc (ErrorObj reason)). rewrite H. reflexivity.
  - intro H.
    apply (Hc (ErrorObj "Gemini API Error: Invalid base64 string format")).
    unfold generateStreetView, base64ToInlineData. rewrite H. reflexivity.
  - intros d Hd request.
    assert (Hs : fst (generateStreetView api merged) =
                 match api request with
                 | Threw e => Threw (rethrow e)
                 | Returned response => Returned (firstImage (firstParts response))
                 end).
    { unfold generateStreetView. rewrite Hd. fold request.
      destruct (api request); reflexivity. }
    split; [ | split ].
    + intros response Hr Hn.
      apply (Hc (ErrorObj "The AI model did not return an image. Please try again.")).
      rewrite Hs, Hr, Hn. reflexivity.
    + intros reason Hr.
      apply (Hc (ErrorObj ("Gemini API Error: " ++ reason)%string)).
      rewrite Hs, Hr. reflexivity.
    + intro Hr.
      apply (Hc (ErrorObj "An unknown error occurred while contacting the Gemini API.")).
      rewrite Hs, Hr. reflexivity.
  - split; [ reflexivity | split; reflexivity ].
Qed.

(** C4 on the result screen of the session: with a service that answers
    without an image, and with a service that fails. *)
Lemma regenerate_failure_keeps_result_witness :
  (truthy (lastMergedImage sampleResult) = Some "data:image/jpeg;base64,AAAA" /\
   truthy (generatedImageUrl sampleResult) = Some "data:image/png;base64,VIEW") /\
  (fst (generateStreetView emptyApi "data:image/jpeg;base64,AAAA") = Returned None /\
   appState (settled (handleRegenerate emptyApi sampleResult)) = RESULT /\
   error (settled (handleRegenerate emptyApi sampleResult)) =
     Some "Failed to regenerate view: The AI model did not return an image. Please try again.") /\
  (fst (generateStreetView failingApi "data:image/jpeg;base64,AAAA") =
     Threw (ErrorObj "Gemini API Error: 503") /\
   appState (settled (handleRegenerate failingApi sampleResult)) = RESULT /\
   error (settled (handleRegenerate failingApi sampleResult)) =
     Some "Failed to regenerate view: Gemini API Error: 503").
Proof.
  pose proof (regenerate_failure_keeps_result emptyApi sampleResult
                "data:image/jpeg;base64,AAAA" "data:image/png;base64,VIEW"
                eq_refl eq_refl) as He.
  pose proof (regenerate_failure_keeps_result failingApi sampleResult
                "data:image/jpeg;base64,AAAA" "data:image/png;base64,VIEW"
                eq_refl eq_refl) as Hf.
  cbv zeta in He, Hf.
  destruct He as [He _]. destruct Hf as [_ [Hf _]].
  specialize (He eq_refl). specialize (Hf "Gemini API Error: 503" eq_refl).
  split; [ split; reflexivity | split ].
  - split; [ reflexivity | split; [ exact (proj1 He) | exact (proj1 (proj2 He)) ] ].
  - split; [ reflexivity | split; [ exact (proj1 Hf) | exact (proj1 (proj2 Hf)) ] ].
Defined.

(** C5, as the code has it.  Upload-new sets the cached artifact to
    absent; a restart (Result to Marking) leaves it as it is, and so does
    a regenerate cycle, in the state committed before the service is
    awaited and in the state committed at the end. *)
Theorem cached_artifact_lifetime (api : Api) (a : State) :
  lastMergedImage (handleUploadNew a) = None /\
  lastMergedImage (handleRestart a) = lastMergedImage a /\
  lastMergedImage (settled (handleRegenerate api a)) = lastMergedImage a /\
  (forall a1, pending (handleRegenerate api a) = Some a1 ->
              lastMergedImage a1 = lastMergedImage a).
Proof.
  split; [ reflexivity | split; [ reflexivity | ] ].
  unfold handleRegenerate.
  destruct (truthy (lastMergedImage a)) as [merged | ].
  - destruct (generateStreetView api merged) as [c sent]; simpl.
    split.
    + unfold regenerationSettled. destruct (imageOrThrow c); reflexivity.
    + intros a1 H. injection H as <-. reflexivity.
  - simpl. split; [ reflexivity | discriminate ].
Qed.

(** C5, as stated, fails: after a restart from the result screen the
    cached artifact is still there. *)
Lemma cached_artifact_lifetime_counterexample :
  appState sampleResult = RESULT /\
  appState (handleRestart sampleResult) = MARKING /\
  lastMergedImage (handleRestart sampleResult) = Some "data:image/jpeg;base64,AAAA" /\
  lastMergedImage (handleRestart sampleResult) <> None /\
  app resultUi = sampleResult /\
  lastMergedImage (app (clickRestart resultUi)) = Some "data:image/jpeg;base64,AAAA".
Proof.
  split; [ reflexivity | split; [ reflexivity | split; [ reflexivity | ] ] ].
  split; [ discriminate | split; reflexivity ].
Qed.

(** C10.  When the input has no decomposition into [data:image/], a
    non-empty run of lower-case letters, [;base64,] and a payload (a
    payload that spans several lines is no match either), the service
    throws "Gemini API Error: Invalid base64 string format" and sends
    nothing to the external model.  The orchestrator then reports a
    failed generation: on a first generation the error "Failed to
    generate view: ..." and the Marking screen, on a regeneration the
    error "Failed to regenerate view: ..." and the Result screen. *)
Theorem malformed_image_rejected (api : Api) (s : string) :
  (forall subtype payload, ~ matchesPattern s subtype payload) ->
  generateStreetView api s =
    (Threw (ErrorObj "Gemini API Error: Invalid base64 string format"), []) /\
  (forall a,
     let o := handleGenerationStart api s a in
     calls o = [] /\
     appState (settled o) = MARKING /\
     error (settled o) =
       Some "Failed to generate view: Gemini API Error: Invalid base64 string format") /\
  (forall a,
     truthy (lastMergedImage a) = Some s ->
     let o := handleRegenerate api a in
     calls o = [] /\
     appState (settled o) = RESULT /\
     error (settled o) =
       Some "Failed to regenerate view: Gemini API Error: Invalid base64 string format").
Proof.
  intro H. apply ServiceFacts.no_match in H.
  assert (Hg : generateStreetView api s =
               (Threw (ErrorObj "Gemini API Error: Invalid base64 string format"), [])).
  { unfold generateStreetView, base64ToInlineData. rewrite H. reflexivity. }
  split; [ exact Hg | split ].
  - intros a o. unfold o, handleGenerationStart. rewrite Hg. simpl.
    repeat split; reflexivity.
  - intros a Hm o. unfold o, handleRegenerate. rewrite Hm, Hg. simpl.
    repeat split; reflexivity.
Qed.

(** C10 on an SVG data URI, whose subtype is not made of letters only. *)
Lemma malformed_image_rejected_witness :
  let s := "data:image/svg+xml;base64,AAAA" in
  (forall subtype payload, ~ matchesPattern s subtype payload) /\
  generateStreetView emptyApi s =
    (Threw (ErrorObj "Gemini API Error: Invalid base64 string format"), []).
Proof.
  intro s.
  assert (H : forall subtype payload, ~ matchesPattern s subtype payload)
    by (apply ServiceFacts.rejected_has_no_shape; reflexivity).
  split; [ exact H | ].
  exact (proj1 (malformed_image_rejected emptyApi s H)).
Defined.

(** The handler exports only from a set of exactly two points. *)
Lemma export_points toDataURL cells cells' merged :
  MapMarker.handleGenerateClick toDataURL cells = (cells', Some merged) ->
  exists p0 p1, MapMarker.points cells = [p0; p1].
Proof.
  unfold MapMarker.handleGenerateClick.
  destruct (MapMarker.canvasRef cells); [ | discriminate ].
  destruct (MapMarker.imageRef cells); [ | discriminate ].
  destruct (MapMarker.points cells) as [ | p0 [ | p1 [ | p2 rest]]];
    try discriminate.
  intros _. exists p0, p1. reflexivity.
Qed.

Lemma no_export toDataURL cells :
  List.length (MapMarker.points cells) <> 2%nat ->
  MapMarker.handleGenerateClick toDataURL cells = (cells, None).
Proof.
  intro H. unfold MapMarker.handleGenerateClick.
  destruct (MapMarker.canvasRef cells); [ | reflexivity ].
  destruct (MapMarker.imageRef cells); [ | reflexivity ].
  destruct (MapMarker.points cells) as [ | p0 [ | p1 [ | p2 rest]]];
    try reflexivity.
  exfalso. apply H. reflexivity.
Qed.

(** The session of the examples is what its definition says: the marker
    on screen holds the cells the handlers computed, and a successful
    generation from the two points ends on the result screen. *)
Example session_one_point :
  marker (tree onePointUi) = Some (enabledProps, onePointCells) /\
  MapMarker.points onePointCells = [firstPoint].
Proof. split; reflexivity. Qed.

Example session_two_points :
  marker (tree twoPointUi) = Some (enabledProps, twoPointCells) /\
  MapMarker.points twoPointCells = twoPoints /\
  appState (app twoPointUi) = MARKING.
Proof. repeat split; reflexivity. Qed.

Example session_result :
  app resultUi = sampleResult /\
  result (tree resultUi) =
    Some (ResultDisplay.mkResultProps "data:image/png;base64,VIEW"
            CallRestart CallUploadNew CallRegenerate false None).
Proof. split; reflexivity. Qed.

(** On a marker without points the Undo button is disabled. *)
Example session_undo_disabled : clickUndo loadedUi = loadedUi.
Proof. reflexivity. Qed.

(** An undo after the second click leaves the first point. *)
Example session_undo :
  markedPoints (tree (clickUndo twoPointUi)) = Some [firstPoint].
Proof. reflexivity. Qed.

(** Regenerating from the result screen when the cached artifact was
    cleared: the error is shown on the marking screen, and nothing was
    sent. *)
Example session_regenerate_without_artifact :
  let u := mkUi (setLastMergedImage None (app resultUi)) (tree resultUi) in
  let u' := clickRegenerate failingApi u in
  appState (app u') = MARKING /\
  option_map (fun m => MapMarker.error (fst m)) (marker (tree u')) =
    Some (Some "Cannot regenerate, previous image data is missing. Please try marking a spot again.").
Proof. split; reflexivity. Qed.

(** C9.  With a PointSet that does not hold exactly two points the
    export handler returns at its guard: the cells of the marker are the
    ones it was given and [onGenerate] is not called, so no artifact
    exists and the orchestrator is not touched.  The Generate button is
    disabled in that case, and a click on it leaves the whole application
    as it is.  Conversely, an export that happens started from exactly
    two points. *)
Theorem export_needs_two_points (toDataURL : Canvas -> string -> R -> string)
    (cells : MapMarker.MarkerState) :
  (List.length (MapMarker.points cells) <> 2%nat ->
   MapMarker.handleGenerateClick toDataURL cells = (cells, None) /\
   (forall props, MapMarker.generateDisabled props cells = true) /\
   (forall api u props,
      marker (tree u) = Some (props, cells) ->
      clickGenerate toDataURL api u = u)) /\
  (forall cells' merged,
     MapMarker.handleGenerateClick toDataURL cells = (cells', Some merged) ->
     List.length (MapMarker.points cells) = 2%nat).
Proof.
  split.
  - intro H.
    assert (Hd : forall props, MapMarker.generateDisabled props cells = true).
    { intro props. unfold MapMarker.generateDisabled.
      apply Nat.eqb_neq in H. rewrite H. reflexivity. }
    split; [ apply no_export, H | split; [ exact Hd | ] ].
    intros api u props Hm. unfold clickGenerate. rewrite Hm, Hd. reflexivity.
  - intros cells' merged H.
    destruct (export_points _ _ _ _ H) as [p0 [p1 E]]. rewrite E. reflexivity.
Qed.

(** C9 on the session after the first click: a click on Generate leaves
    the application in Marking, as it was. *)
Lemma export_needs_two_points_witness :
  List.length (MapMarker.points onePointCells) <> 2%nat /\
  clickGenerate sampleEncoder emptyApi onePointUi = onePointUi /\
  appState (app (clickGenerate sampleEncoder emptyApi onePointUi)) = MARKING.
Proof.
  assert (Hn : List.length (MapMarker.points onePointCells) <> 2%nat)
    by (intro H; discriminate H).
  pose proof (proj2 (proj2 (proj1 (export_needs_two_points sampleEncoder onePointCells) Hn))
                emptyApi onePointUi enabledProps eq_refl) as H.
  split; [ exact Hn | split; [ exact H | ] ].
  rewrite H. reflexivity.
Defined.

(** A first generation whose [try] body ends in a throw: the [catch]
    clause, and the screen it leads to. *)
Lemma generation_caught (toDataURL : Canvas -> string -> R -> string)
    (api : Api) (u : Ui) (url : string) (cells cells' : MapMarker.MarkerState)
    (merged : string) (err : Thrown) :
  appState (app u) = MARKING ->
  truthy (mapImageUrl (app u)) = Some url ->
  truthy (generatedImageUrl (app u)) = None ->
  tree u =
    IComp (MapMarkerP (MapMarker.mkMarkerProps url CallGenerationStart false
                         (error (app u)) CallUploadNew))
          (MapMarkerC cells) ->
  MapMarker.handleGenerateClick toDataURL cells = (cells', Some merged) ->
  imageOrThrow (fst (generateStreetView api merged)) = Threw err ->
  let u' := clickGenerate toDataURL api u in
  let message := ("Failed to generate view: " ++ errorMessage err)%string in
  appState (app u') = MARKING /\
  error (app u') = Some message /\
  mapImageUrl (app u') = mapImageUrl (app u) /\
  generatedImageUrl (app u') = generatedImageUrl (app u) /\
  lastMergedImage (app u') = Some merged /\
  tree u' =
    IComp (MapMarkerP (MapMarker.mkMarkerProps url CallGenerationStart false
                         (Some message) CallUploadNew))
          (MapMarkerC MapMarker.initial) /\
  markedPoints (tree u') = Some [].
Proof.
  intros Hs Hu Hg Ht He Hf u' message.
  destruct (export_points _ _ _ _ He) as [p0 [p1 Hp]].
  destruct u as [a t]; simpl in *. subst t.
  destruct a as [st mapUrl genUrl lastMerged e]; simpl in *. subst st.
  assert (Hu' : u' =
    mkUi (mkApp MARKING mapUrl genUrl (Some merged) (Some message))
      (IComp (MapMarkerP (MapMarker.mkMarkerProps url CallGenerationStart false
                            (Some message) CallUploadNew))
             (MapMarkerC MapMarker.initial))).
  { unfold u', clickGenerate; simpl.
    unfold MapMarker.generateDisabled. rewrite Hp. simpl.
    rewrite He. simpl.
    unfold handleGenerationStart.
    destruct (generateStreetView api merged) as [c sent]; simpl in Hf.
    unfold commitOutcome, commit, generationSettled; simpl.
    rewrite Hf; simpl.
    unfold renderContent; simpl. rewrite Hg, Hu. reflexivity. }
  rewrite Hu'. simpl. repeat split; reflexivity.
Qed.

(** C1, where the code departs from its design.  The user is on the
    marking screen, no result exists, and a click on Generate exports an
    artifact: the marker holds two points.  When the service returns no
    image, or throws an error, the orchestrator commits the error
    ("Failed to generate view: The AI model did not return an image.
    Please try again.", or "Failed to generate view: " followed by the
    message of the error) and returns from Generating to Marking; the map
    image is kept and the artifact of the attempt stays cached.  The
    PointSet is not kept: the marking component that held the two points
    was unmounted when the screen changed to Generating (the content
    changed from the component to a wrapping [div]), and a new one is
    mounted on the way back, so the marker on screen holds the cells of a
    fresh one and no point. *)
Theorem first_generation_failure (toDataURL : Canvas -> string -> R -> string)
    (api : Api) (u : Ui) (url : string) (cells cells' : MapMarker.MarkerState)
    (merged : string) :
  appState (app u) = MARKING ->
  truthy (mapImageUrl (app u)) = Some url ->
  truthy (generatedImageUrl (app u)) = None ->
  tree u =
    IComp (MapMarkerP (MapMarker.mkMarkerProps url CallGenerationStart false
                         (error (app u)) CallUploadNew))
          (MapMarkerC cells) ->
  MapMarker.handleGenerateClick toDataURL cells = (cells', Some merged) ->
  let u' := clickGenerate toDataURL api u in
  let lost (message : string) :=
    appState (app u') = MARKING /\
    error (app u') = Some message /\
    mapImageUrl (app u') = mapImageUrl (app u) /\
    generatedImageUrl (app u') = generatedImageUrl (app u) /\
    lastMergedImage (app u') = Some merged /\
    tree u' =
      IComp (MapMarkerP (MapMarker.mkMarkerProps url CallGenerationStart false
                           (Some message) CallUploadNew))
            (MapMarkerC MapMarker.initial) /\
    markedPoints (tree u') = Some [] in
  (exists p0 p1, markedPoints (tree u) = Some [p0; p1]) /\
  (fst (generateStreetView api merged) = Returned None ->
   lost "Failed to generate view: The AI model did not return an image. Please try again.") /\
  (forall reason : string,
     fst (generateStreetView api merged) = Threw (ErrorObj reason) ->
     lost ("Failed to generate view: " ++ reason)%string).
Proof.
  intros Hs Hu Hg Ht He u' lost.
  assert (Hc : forall err,
             imageOrThrow (fst (generateStreetView api merged)) = Threw err ->
             lost ("Failed to generate view: " ++ errorMessage err)%string).
  { intros err Hf.
    exact (generation_caught toDataURL api u url cells cells' merged err
             Hs Hu Hg Ht He Hf). }
  split; [ | split ].
  - destruct (export_points _ _ _ _ He) as [p0 [p1 Hp]].
    exists p0, p1. rewrite Ht. unfold markedPoints; simpl. rewrite Hp. reflexivity.
  - intro H.
    apply (Hc (ErrorObj "The AI model did not return an image. Please try again.")).
    rewrite H. reflexivity.
  - intros reason H. apply (Hc (ErrorObj reason)). rewrite H. reflexivity.
Qed.

(** C1 on the session after the second click, with a service that
    answers without an image: the two points are gone. *)
Lemma first_generation_failure_witness :
  let u := twoPointUi in
  markedPoints (tree u) = Some twoPoints /\
  fst (generateStreetView emptyApi "data:image/jpeg;base64,AAAA") = Returned None /\
  appState (app (clickGenerate sampleEncoder emptyApi u)) = MARKING /\
  markedPoints (tree (clickGenerate sampleEncoder emptyApi u)) = Some [].
Proof.
  intro u.
  pose proof (first_generation_failure sampleEncoder emptyApi u
                mapUrl twoPointCells _ "data:image/jpeg;base64,AAAA"
                eq_refl eq_refl eq_refl eq_refl eq_refl) as H.
  cbv zeta in H. destruct H as [_ [H _]]. specialize (H eq_refl).
  split; [ reflexivity | split; [ reflexivity | split ] ].
  - exact (proj1 H).
  - exact (proj2 (proj2 (proj2 (proj2 (proj2 (proj2 H)))))).
Defined.

(** C1 fails on the session of the examples: the two points stored
    before the generation are not stored afterwards, with a service that
    returns no image as with one that fails. *)
Lemma first_generation_failure_counterexample :
  markedPoints (tree twoPointUi) = Some twoPoints /\
  (let u' := clickGenerate sampleEncoder emptyApi twoPointUi in
   appState (app u') = MARKING /\
   error (app u') =
     Some "Failed to generate view: The AI model did not return an image. Please try again." /\
   markedPoints (tree u') = Some [] /\
   markedPoints (tree u') <> Some twoPoints) /\
  (let u' := clickGenerate sampleEncoder failingApi twoPointUi in
   appState (app u') = MARKING /\
   error (app u') = Some "Failed to generate view: Gemini API Error: 503" /\
   markedPoints (tree u') = Some [] /\
   markedPoints (tree u') <> Some twoPoints).
Proof.
  split; [ reflexivity | split ];
    (split; [ reflexivity | split; [ reflexivity | split; [ reflexivity | ] ] ]);
    intro H; discriminate H.
Qed.

End OrchestratorFacts.

(* ================================================================== *)
(** * Further properties of the marking component *)
(* ================================================================== *)

Module MapMarkerMore.

Import Geometry MapMarker MarkerView Samples MapMarkerFacts.

Lemma state_eq (s : MarkerState) :
  mkMarker (canvasRef s) (imageRef s) (points s) (imageSize s) = s.
Proof. destruct s; reflexivity. Qed.

(** Undo takes back an accepted click: the cells are those before the
    click.  On an empty PointSet, Undo changes nothing. *)
Theorem undo_takes_back_click (props : MapMarkerProps) (rect : DOMRect)
    (event : MouseEvent) (s : MarkerState) :
  (points s = [] -> handleUndo s = s) /\
  (disabled props = false ->
   (List.length (points s) < 2)%nat ->
   canvasRef s <> None ->
   handleUndo (handleCanvasClick props rect event s) = s).
Proof.
  split.
  - intro H. unfold handleUndo, setPoints, dropLast. rewrite H. simpl.
    rewrite <- H. apply state_eq.
  - intros Hd Hl Hc.
    destruct (canvasRef s) as [canvas | ] eqn:E; [ | congruence ].
    rewrite (click_accepted props rect event s canvas Hl Hd E).
    unfold handleUndo, setPoints, dropLast; simpl.
    rewrite removelast_last. apply state_eq.
Qed.

Lemma undo_takes_back_click_witness :
  disabled enabledProps = false /\
  (List.length (points onePointCells) < 2)%nat /\
  canvasRef onePointCells <> None /\
  handleUndo (handleCanvasClick enabledProps sampleRect secondClick onePointCells)
    = onePointCells.
Proof.
  assert (Hl : (List.length (points onePointCells) < 2)%nat) by (simpl; lia).
  assert (Hc : canvasRef onePointCells <> None) by (intro E; discriminate E).
  split; [ reflexivity | split; [ exact Hl | split; [ exact Hc | ] ] ].
  exact (proj2 (undo_takes_back_click enabledProps sampleRect secondClick
                  onePointCells) eq_refl Hl Hc).
Defined.

(** Along every sequence of clicks and undos on an enabled marker, the
    instruction line and the buttons agree: "Ready to generate your
    view!" is shown exactly when the Generate button is enabled, and the
    starting instruction exactly when the Undo button is disabled. *)
Theorem instruction_matches_buttons (props : MapMarkerProps) (ops : list Op) :
  disabled props = false ->
  let s := run props ops initial in
  (instruction s = "Ready to generate your view!" <->
   generateDisabled props s = false) /\
  (instruction s = "Tap on the map to set your starting point." <->
   undoDisabled props s = true).
Proof.
  intros Hd s.
  assert (Hb : (List.length (points s) <= 2)%nat)
    by (apply run_bound; simpl; lia).
  unfold instruction, generateDisabled, undoDisabled. rewrite Hd.
  destruct (List.length (points s)) as [ | [ | [ | n]]]; simpl.
  - split; split; intro H; (discriminate H || reflexivity).
  - split; split; intro H; (discriminate H || reflexivity).
  - split; split; intro H; (discriminate H || reflexivity).
  - lia.
Qed.

Lemma instruction_matches_buttons_witness :
  let s := run enabledProps [Add sampleRect sampleClick; Add sampleRect secondClick]
             initial in
  disabled enabledProps = false /\
  instruction s = "Ready to generate your view!" /\
  generateDisabled enabledProps s = false.
Proof.
  intro s.
  split; [ reflexivity | split; [ reflexivity | ] ].
  apply (proj1 (instruction_matches_buttons enabledProps
                  [Add sampleRect sampleClick; Add sampleRect secondClick] eq_refl)).
  reflexivity.
Defined.

(** The redraw effect never patches the canvas: what it leaves there is
    decided by the image and the PointSet alone, whatever was drawn
    before. *)
Theorem redraw_from_scratch (s1 s2 : MarkerState) (image : Image) :
  imageRef s1 = Some image ->
  imageRef s2 = Some image ->
  points s1 = points s2 ->
  fst (imageSize s1) <> 0%Z ->
  fst (imageSize s2) <> 0%Z ->
  canvasRef s1 <> None ->
  canvasRef s2 <> None ->
  canvasRef (redraw s1) = canvasRef (redraw s2).
Proof.
  intros Hi1 Hi2 Hp Hz1 Hz2 Hc1 Hc2. unfold redraw.
  destruct (canvasRef s1) as [c1 | ]; [ | congruence ].
  destruct (canvasRef s2) as [c2 | ]; [ | congruence ].
  rewrite Hi1, Hi2, <- Hp.
  apply Z.eqb_neq in Hz1, Hz2. rewrite Hz1, Hz2.
  destruct (points s1) as [ | p0 [ | p1 [ | p2 rest]]]; reflexivity.
Qed.

(** [redraw_from_scratch] on the marker of the session after two clicks
    and on the same marker with a scribbled canvas. *)
Lemma redraw_from_scratch_witness :
  let scribbled :=
    setCanvas (mkCanvas 10 10 [BeginPath; MoveTo 0 0; LineTo 9 9; Stroke])
      twoPointCells in
  canvasRef scribbled <> canvasRef twoPointCells /\
  canvasRef (redraw scribbled) = canvasRef (redraw twoPointCells).
Proof.
  intro scribbled. split.
  - intro E. discriminate E.
  - apply (redraw_from_scratch scribbled twoPointCells mapImage);
      try reflexivity; intro E; discriminate E.
Defined.

(** Running the redraw effect twice is running it once, and it touches
    nothing but the canvas. *)
Theorem redraw_idempotent (s : MarkerState) :
  redraw (redraw s) = redraw s /\
  points (redraw s) = points s /\
  imageRef (redraw s) = imageRef s /\
  imageSize (redraw s) = imageSize s.
Proof.
  unfold redraw.
  destruct (canvasRef s) as [canvas | ] eqn:Ec;
    [ | rewrite Ec; repeat split; reflexivity ].
  destruct (imageRef s) as [image | ] eqn:Ei;
    [ | rewrite Ec, Ei; repeat split; reflexivity ].
  destruct (fst (imageSize s) =? 0)%Z eqn:Ez;
    [ rewrite Ec, Ei, Ez; repeat split; reflexivity | ].
  destruct (points s) as [ | p0 [ | p1 [ | p2 rest]]] eqn:Ep;
    simpl; rewrite ?Ei, ?Ez, ?Ep; repeat split; reflexivity.
Qed.

(** The export draws on a canvas sized to the image, whatever was on it
    before: the base image and then the arrow.  The encoder is given
    exactly the picture of the preview (which only clears first). *)
Theorem export_is_preview (toDataURL : Canvas -> string -> R -> string)
    (s : MarkerState) (canvas : Canvas) (image : Image) (p0 p1 : Point) :
  canvasRef s = Some canvas ->
  imageRef s = Some image ->
  points s = [p0; p1] ->
  fst (imageSize s) <> 0%Z ->
  let exported :=
    mkCanvas (naturalWidth image) (naturalHeight image)
      (DrawImage image 0 0 :: drawArrow p0 p1) in
  handleGenerateClick toDataURL s =
    (setCanvas exported s, Some (toDataURL exported "image/jpeg" (9 / 10))) /\
  canvasRef (redraw s) =
    Some (mkCanvas (width exported) (height exported)
            (ClearRect 0 0 (IZR (width exported)) (IZR (height exported))
               :: ops exported)).
Proof.
  intros Hc Hi Hp Hz exported. split.
  - unfold handleGenerateClick. rewrite Hc, Hi, Hp. reflexivity.
  - unfold redraw. rewrite Hc, Hi, Hp.
    apply Z.eqb_neq in Hz. rewrite Hz. reflexivity.
Qed.

Lemma export_is_preview_witness :
  exists exported,
    handleGenerateClick sampleEncoder twoPointCells =
      (setCanvas exported twoPointCells, Some "data:image/jpeg;base64,AAAA") /\
    width exported = 300%Z.
Proof.
  eexists. split.
  - refine (proj1 (export_is_preview sampleEncoder twoPointCells _ mapImage
                     firstPoint secondPoint eq_refl eq_refl eq_refl _)).
    intro E. discriminate E.
  - reflexivity.
Defined.

Lemma in_removelast (p : Point) (l : list Point) : In p (removelast l) -> In p l.
Proof.
  induction l as [ | a l IH]; [ intros [] | ].
  destruct l as [ | b l']; [ intros [] | ].
  change (removelast (a :: b :: l')) with (a :: removelast (b :: l')).
  intros [H | H]; [ left; exact H | right; exact (IH H) ].
Qed.

(** Every stored point was clicked: after any sequence of clicks and
    undos, each point of the PointSet was there at the start or is the
    mapped position of one of the clicks of the sequence. *)
Theorem stored_points_were_clicked (props : MapMarkerProps) (ops : list Op) :
  forall (s : MarkerState) (canvas : Canvas),
    canvasRef s = Some canvas ->
    forall p, In p (points (run props ops s)) ->
      In p (points s) \/
      exists rect event, In (Add rect event) ops /\ p = toImagePoint canvas rect event.
Proof.
  induction ops as [ | o ops IH]; intros s canvas Hc p Hp; [ left; exact Hp | ].
  change (run props (o :: ops) s) with (run props ops (step props s o)) in Hp.
  assert (Hc' : canvasRef (step props s o) = Some canvas)
    by (rewrite step_canvas; exact Hc).
  destruct (IH _ _ Hc' p Hp) as [H | [rect [event [Hin Heq]]]].
  - destruct o as [rect event | ]; simpl in H.
    + unfold handleCanvasClick in H.
      destruct (_ || _); [ left; exact H | ].
      rewrite Hc in H. simpl in H. apply in_app_or in H as [H | [H | []]].
      * left; exact H.
      * right. exists rect, event. split; [ left; reflexivity | symmetry; exact H ].
    + left. apply in_removelast. exact H.
  - right. exists rect, event. split; [ right; exact Hin | exact Heq ].
Qed.

Lemma stored_points_were_clicked_witness :
  let ops := [Add sampleRect sampleClick; Undo; Add sampleRect secondClick] in
  canvasRef initial = Some defaultCanvas /\
  In secondPoint (points (run enabledProps ops initial)) /\
  (In secondPoint (points initial) \/
   exists rect event,
     In (Add rect event) ops /\ secondPoint = toImagePoint defaultCanvas rect event).
Proof.
  intro ops.
  assert (Hin : In secondPoint (points (run enabledProps ops initial)))
    by (left; reflexivity).
  split; [ reflexivity | split; [ exact Hin | ] ].
  exact (stored_points_were_clicked enabledProps ops initial defaultCanvas eq_refl
           secondPoint Hin).
Defined.

End MapMarkerMore.

(* ================================================================== *)
(** * Further properties of the image service *)
(* ================================================================== *)

Module ServiceMore.

Import Service ServiceFacts Samples.

(** Decoding a data URI and writing the two parts back gives the same
    string; and every string of the pattern's shape is decoded into its
    media type and its payload. *)
Theorem data_uri_round_trip :
  (forall s m d,
     base64ToInlineData s = Returned (mkInline m d) ->
     ("data:" ++ m ++ ";base64," ++ d)%string = s) /\
  (forall subtype payload,
     subtype <> EmptyString ->
     allChars isLower subtype = true ->
     allChars (fun c => negb (isLineTerminator c)) payload = true ->
     base64ToInlineData ("data:image/" ++ subtype ++ ";base64," ++ payload)
       = Returned (mkInline ("image/" ++ subtype) payload)).
Proof.
  split.
  - intros s m d H. unfold base64ToInlineData in H.
    destruct (matchDataUri s) as [[m' d'] | ] eqn:E; [ | discriminate H ].
    injection H as -> ->.
    apply matchDataUri_spec in E as [subtype [-> [-> _]]]. reflexivity.
  - intros subtype payload Hn Hl Hp. unfold base64ToInlineData.
    assert (E : matchDataUri ("data:image/" ++ subtype ++ ";base64," ++ payload)
                = Some (("image/" ++ subtype)%string, payload)).
    { apply matchDataUri_spec. exists subtype. split; [ reflexivity | ].
      repeat split; assumption. }
    rewrite E. reflexivity.
Qed.

Lemma data_uri_round_trip_witness :
  base64ToInlineData "data:image/jpeg;base64,AAAA" = Returned (mkInline "image/jpeg" "AAAA") /\
  ("data:" ++ "image/jpeg" ++ ";base64," ++ "AAAA")%string = "data:image/jpeg;base64,AAAA".
Proof.
  split.
  - refine (proj2 data_uri_round_trip "jpeg" "AAAA" _ eq_refl eq_refl).
    intro E. discriminate E.
  - exact (proj1 data_uri_round_trip "data:image/jpeg;base64,AAAA" "image/jpeg" "AAAA"
             eq_refl).
Defined.

(** For an input of the pattern's shape exactly one request is sent,
    whatever the service answers: the model name, the media type and the
    payload of the input, and the fixed prompt. *)
Theorem request_carries_input (api : Api) (s subtype payload : string) :
  matchesPattern s subtype payload ->
  snd (generateStreetView api s) =
    [mkRequest "gemini-2.5-flash-image-preview"
       (mkInline ("image/" ++ subtype) payload) PROMPT].
Proof.
  intro H.
  assert (E : matchDataUri s = Some (("image/" ++ subtype)%string, payload))
    by (apply matchDataUri_spec; exists subtype; split; [ reflexivity | exact H ]).
  unfold generateStreetView, base64ToInlineData. rewrite E.
  destruct (api _); reflexivity.
Qed.

Lemma request_carries_input_witness :
  matchesPattern "data:image/jpeg;base64,AAAA" "jpeg" "AAAA" /\
  snd (generateStreetView failingApi "data:image/jpeg;base64,AAAA") =
    [mkRequest "gemini-2.5-flash-image-preview" (mkInline "image/jpeg" "AAAA") PROMPT].
Proof.
  assert (H : matchesPattern "data:image/jpeg;base64,AAAA" "jpeg" "AAAA").
  { split; [ reflexivity | split; [ intro E; discriminate E | split; reflexivity ] ]. }
  split; [ exact H | ].
  exact (request_carries_input failingApi _ _ _ H).
Defined.

Lemma thrown_forms (api : Api) (s : string) (e : Thrown) :
  fst (generateStreetView api s) = Threw e ->
  e = ErrorObj "An unknown error occurred while contacting the Gemini API." \/
  exists m, e = ErrorObj ("Gemini API Error: " ++ m).
Proof.
  unfold generateStreetView, base64ToInlineData.
  destruct (matchDataUri s) as [[m d] | ].
  - destruct (api _) as [r | [m0 | ]]; simpl; intro H.
    + discriminate H.
    + injection H as <-. right. exists m0. reflexivity.
    + injection H as <-. left. reflexivity.
  - simpl. intro H. injection H as <-. right. eexists. reflexivity.
Qed.

(** Whatever the service throws and whatever the input, what
    [generateStreetView] throws is an [Error], and its message is the
    fixed text for a thrown non-error or starts with "Gemini API
    Error: ": the orchestrator's own fallback message for a thrown
    non-error is never used for this service. *)
Theorem service_throws_errors_only (api : Api) (s : string) (e : Thrown) :
  fst (generateStreetView api s) = Threw e ->
  (e = ErrorObj "An unknown error occurred while contacting the Gemini API." \/
   exists m, e = ErrorObj ("Gemini API Error: " ++ m)) /\
  App.errorMessage e <> "An unknown error occurred.".
Proof.
  intro H. pose proof (thrown_forms api s e H) as F.
  split; [ exact F | ].
  destruct F as [-> | [m ->]]; simpl; intro E; discriminate E.
Qed.

Lemma service_throws_errors_only_witness :
  fst (generateStreetView (fun _ => Threw NonError) "data:image/jpeg;base64,AAAA")
    = Threw (ErrorObj "An unknown error occurred while contacting the Gemini API.") /\
  (ErrorObj "An unknown error occurred while contacting the Gemini API."
     = ErrorObj "An unknown error occurred while contacting the Gemini API." \/
   exists m,
     ErrorObj "An unknown error occurred while contacting the Gemini API."
       = ErrorObj ("Gemini API Error: " ++ m)).
Proof.
  split; [ reflexivity | ].
  exact (proj1 (service_throws_errors_only (fun _ => Threw NonError)
                  "data:image/jpeg;base64,AAAA" _ eq_refl)).
Defined.

(** The loop over the parts returns the first part that has inline data,
    written as a data URI, and nothing when no part has any; the result
    is never the empty string. *)
Theorem first_inline_part_wins (parts : list Part) :
  (firstImage parts = None <-> Forall (fun p => inlineData p = None) parts) /\
  (forall url,
     firstImage parts = Some url ->
     url <> EmptyString /\
     exists before part d after,
       parts = before ++ part :: after /\
       Forall (fun p => inlineData p = None) before /\
       inlineData part = Some d /\
       url = ("data:" ++ mimeType d ++ ";base64," ++ data d)%string).
Proof.
  induction parts as [ | p parts [IH1 IH2]]; simpl.
  - split; [ split; [ constructor | reflexivity ] | intros url H; discriminate H ].
  - destruct (inlineData p) as [d | ] eqn:E.
    + split.
      * split; [ intro H; discriminate H | ].
        intro H. inversion H as [ | ? ? Hp _]. congruence.
      * intros url H. injection H as <-. split; [ discriminate | ].
        exists [], p, d, parts. repeat split; [ constructor | exact E ].
    + split.
      * split.
        -- intro H. constructor; [ exact E | apply IH1, H ].
        -- intro H. inversion H. apply IH1. assumption.
      * intros url H. destruct (IH2 url H) as [Hn [before [part [d [after [-> [Hb [Hd ->]]]]]]]].
        split; [ exact Hn | ].
        exists (p :: before), part, d, after.
        repeat split; [ constructor; assumption | exact Hd ].
Qed.

Lemma first_inline_part_wins_witness :
  let parts := [mkPart None (Some "Here is your view.");
                mkPart (Some (mkInline "image/png" "VIEW")) None;
                mkPart (Some (mkInline "image/png" "OTHER")) None] in
  firstImage parts = Some "data:image/png;base64,VIEW" /\
  "data:image/png;base64,VIEW" <> EmptyString.
Proof.
  intro parts. split; [ reflexivity | ].
  exact (proj1 (proj2 (first_inline_part_wins parts) _ eq_refl)).
Defined.

(** Only the first candidate of a response is read: whatever follows it
    changes nothing, and without a first candidate, or when it has no
    parts, the call returns no image. *)
Theorem only_first_candidate_read (api : Api) (s : string) (request : Request) :
  snd (generateStreetView api s) = [request] ->
  (forall first rest,
     api request = Returned (mkResponse (Some (first :: rest))) ->
     fst (generateStreetView api s) =
       Returned (firstImage (match first with Some parts => parts | None => [] end))) /\
  (api request = Returned (mkResponse None) \/
   api request = Returned (mkResponse (Some [])) ->
   fst (generateStreetView api s) = Returned None).
Proof.
  unfold generateStreetView.
  destruct (base64ToInlineData s) as [d | e]; [ | intro H; discriminate H ].
  destruct (api _) as [r | e] eqn:E; simpl; intro H; injection H as <-.
  - rewrite E. split.
    + intros first rest Hr. injection Hr as ->. destruct first; reflexivity.
    + intros [Hr | Hr]; injection Hr as ->; reflexivity.
  - rewrite E. split.
    + intros first rest Hr. discriminate Hr.
    + intros [Hr | Hr]; discriminate Hr.
Qed.

Lemma only_first_candidate_read_witness :
  let api : Api := fun _ =>
    Returned (mkResponse (Some [None; Some [mkPart (Some (mkInline "image/png" "VIEW")) None]])) in
  let s := "data:image/jpeg;base64,AAAA" in
  let request := mkRequest "gemini-2.5-flash-image-preview" (mkInline "image/jpeg" "AAAA") PROMPT in
  snd (generateStreetView api s) = [request] /\
  fst (generateStreetView api s) = Returned None.
Proof.
  intros api s request. split; [ reflexivity | ].
  exact (proj1 (only_first_candidate_read api s request eq_refl) None _ eq_refl).
Defined.

End ServiceMore.

(* ================================================================== *)
(** * Further properties of the orchestrator *)
(* ================================================================== *)

Module OrchestratorMore.

Import Service App Screen FileUpload Session Samples.

Lemma firstImage_truthy (parts : list Part) (url : string) :
  firstImage parts = Some url -> truthy (Some url) = Some url.
Proof.
  induction parts as [ | p parts IH]; simpl; [ discriminate | ].
  destruct (inlineData p) as [d | ]; [ | exact IH ].
  intro H. injection H as <-. reflexivity.
Qed.

(** An image the service returns is never the empty string. *)
Lemma returned_url_truthy (api : Api) (s url : string) :
  fst (generateStreetView api s) = Returned (Some url) ->
  truthy (Some url) = Some url.
Proof.
  unfold generateStreetView.
  destruct (base64ToInlineData s) as [d | e]; [ | discriminate ].
  destruct (api _) as [r | e]; simpl; [ | discriminate ].
  intro H. injection H as H. exact (firstImage_truthy _ _ H).
Qed.

(** The service answers only inputs of the pattern's shape. *)
Lemma returned_input_matches (api : Api) (s : string) (r : option string) :
  fst (generateStreetView api s) = Returned r ->
  exists subtype payload, matchesPattern s subtype payload.
Proof.
  unfold generateStreetView, base64ToInlineData.
  destruct (matchDataUri s) as [[m d] | ] eqn:E; [ | discriminate ].
  intros _. apply ServiceFacts.matchDataUri_spec in E as [subtype [_ H]].
  exists subtype, d. exact H.
Qed.

Lemma matching_truthy (s subtype payload : string) :
  matchesPattern s subtype payload -> truthy (Some s) = Some s.
Proof. intros [-> _]. reflexivity. Qed.

(** The requests a call sends do not depend on what the service
    answers. *)
Lemma sent_independent (api1 api2 : Api) (s : string) :
  snd (generateStreetView api1 s) = snd (generateStreetView api2 s).
Proof.
  unfold generateStreetView.
  destruct (base64ToInlineData s) as [d | e]; [ | reflexivity ].
  destruct (api1 _), (api2 _); reflexivity.
Qed.

(** An answered call sent exactly one request. *)
Lemma returned_sends_one (api : Api) (s : string) (r : option string) :
  fst (generateStreetView api s) = Returned r ->
  List.length (snd (generateStreetView api s)) = 1%nat.
Proof.
  unfold generateStreetView.
  destruct (base64ToInlineData s) as [d | e]; [ | discriminate ].
  destruct (api _); reflexivity.
Qed.

Lemma imageOrThrow_returned (c : Completion (option string)) (url : string) :
  c = Returned (Some url) -> truthy (Some url) = Some url ->
  imageOrThrow c = Returned url.
Proof. intros -> H. unfold imageOrThrow. rewrite H. reflexivity. Qed.

(** A first generation that the service answers with an image: while the
    request is out the orchestrator is in Generating with the artifact
    cached and the error cleared; it ends in Result with the image
    stored, and the result screen shows that image without an error. *)
Theorem generation_success (api : Api) (merged url : string) (a : State) :
  fst (generateStreetView api merged) = Returned (Some url) ->
  let o := handleGenerationStart api merged a in
  pending o =
    Some (mkApp GENERATING (mapImageUrl a) (generatedImageUrl a) (Some merged) None) /\
  settled o = mkApp RESULT (mapImageUrl a) (Some url) (Some merged) None /\
  renderContent (settled o) =
    EComp (ResultDisplayP
      (ResultDisplay.mkResultProps url CallRestart CallUploadNew CallRegenerate
         false None)).
Proof.
  intros H o.
  pose proof (returned_url_truthy _ _ _ H) as Ht.
  unfold o, handleGenerationStart.
  destruct (generateStreetView api merged) as [c sent]; simpl in *.
  unfold generationSettled. rewrite (imageOrThrow_returned c url H Ht).
  split; [ reflexivity | split; [ reflexivity | ] ].
  unfold renderContent; simpl. rewrite Ht. reflexivity.
Qed.

Lemma generation_success_witness :
  fst (generateStreetView imageApi "data:image/jpeg;base64,AAAA")
    = Returned (Some "data:image/png;base64,VIEW") /\
  settled (handleGenerationStart imageApi "data:image/jpeg;base64,AAAA" (app twoPointUi))
    = sampleResult.
Proof.
  split; [ reflexivity | ].
  exact (proj1 (proj2 (generation_success imageApi "data:image/jpeg;base64,AAAA"
                         "data:image/png;base64,VIEW" (app twoPointUi) eq_refl))).
Defined.

(** Regenerating after a successful generation sends the request of that
    generation again, whatever the service answers this time; a new image
    replaces the old one and the cached artifact stays. *)
Theorem regenerate_replays_request (api1 api2 : Api) (merged url : string)
    (a : State) :
  fst (generateStreetView api1 merged) = Returned (Some url) ->
  let first := handleGenerationStart api1 merged a in
  let again := handleRegenerate api2 (settled first) in
  calls again = calls first /\
  List.length (calls again) = 1%nat /\
  (forall url2,
     fst (generateStreetView api2 merged) = Returned (Some url2) ->
     settled again = mkApp RESULT (mapImageUrl a) (Some url2) (Some merged) None).
Proof.
  intros H first again.
  pose proof (returned_url_truthy _ _ _ H) as Ht.
  destruct (returned_input_matches _ _ _ H) as [subtype [payload Hm]].
  pose proof (matching_truthy _ _ _ Hm) as Htm.
  pose proof (returned_sends_one _ _ _ H) as Hone.
  assert (Hs : settled first = mkApp RESULT (mapImageUrl a) (Some url) (Some merged) None).
  { unfold first, handleGenerationStart.
    destruct (generateStreetView api1 merged) as [c sent]; simpl in *.
    unfold generationSettled. rewrite (imageOrThrow_returned c url H Ht). reflexivity. }
  assert (Hc : calls first = snd (generateStreetView api1 merged)).
  { unfold first, handleGenerationStart.
    destruct (generateStreetView api1 merged) as [c sent]. reflexivity. }
  assert (Ha : again =
    mkOutcome (Some (mkApp GENERATING (mapImageUrl a) (Some url) (Some merged) None))
      (regenerationSettled (fst (generateStreetView api2 merged))
         (mkApp GENERATING (mapImageUrl a) (Some url) (Some merged) None))
      (snd (generateStreetView api2 merged))).
  { unfold again. rewrite Hs. unfold handleRegenerate. simpl lastMergedImage.
    rewrite Htm. destruct (generateStreetView api2 merged) as [c sent]. reflexivity. }
  rewrite Ha, Hc. simpl.
  split; [ apply sent_independent | split ].
  - rewrite (sent_independent api2 api1). exact Hone.
  - intros url2 H2. unfold regenerationSettled.
    rewrite (imageOrThrow_returned _ url2 H2 (returned_url_truthy _ _ _ H2)).
    reflexivity.
Qed.

Lemma regenerate_replays_request_witness :
  fst (generateStreetView imageApi "data:image/jpeg;base64,AAAA")
    = Returned (Some "data:image/png;base64,VIEW") /\
  calls (handleRegenerate failingApi
           (settled (handleGenerationStart imageApi "data:image/jpeg;base64,AAAA"
                       (app twoPointUi))))
    = calls (handleGenerationStart imageApi "data:image/jpeg;base64,AAAA" (app twoPointUi)).
Proof.
  split; [ reflexivity | ].
  exact (proj1 (regenerate_replays_request imageApi failingApi
                  "data:image/jpeg;base64,AAAA" "data:image/png;base64,VIEW"
                  (app twoPointUi) eq_refl)).
Defined.

(** How a first generation can end: in Result without an error, or in
    Marking with "Failed to generate view: " followed by one of three
    messages: no image returned, a thrown non-error, or "Gemini API
    Error: " and the message of the thrown error. *)
Theorem generation_outcomes (api : Api) (merged : string) (a : State) :
  let o := handleGenerationStart api merged a in
  (appState (settled o) = RESULT /\ error (settled o) = None /\
   exists url, generatedImageUrl (settled o) = Some url /\ url <> EmptyString) \/
  (appState (settled o) = MARKING /\
   generatedImageUrl (settled o) = generatedImageUrl a /\
   exists m,
     error (settled o) = Some ("Failed to generate view: " ++ m)%string /\
     (m = "The AI model did not return an image. Please try again." \/
      m = "An unknown error occurred while contacting the Gemini API." \/
      exists m0, m = ("Gemini API Error: " ++ m0)%string)).
Proof.
  intro o. unfold o, handleGenerationStart.
  destruct (generateStreetView api merged) as [c sent] eqn:E; simpl.
  assert (Hc : fst (generateStreetView api merged) = c) by (rewrite E; reflexivity).
  unfold generationSettled.
  destruct c as [[url | ] | e].
  - pose proof (returned_url_truthy _ _ _ Hc) as Ht.
    rewrite (imageOrThrow_returned _ url eq_refl Ht). left. simpl.
    split; [ reflexivity | split; [ reflexivity | ] ].
    exists url. split; [ reflexivity | ].
    intros ->. discriminate Ht.
  - right. simpl. split; [ reflexivity | split; [ reflexivity | ] ].
    eexists. split; [ reflexivity | left; reflexivity ].
  - right. simpl. split; [ reflexivity | split; [ reflexivity | ] ].
    destruct (ServiceMore.thrown_forms api merged e Hc) as [-> | [m0 ->]].
    + eexists. split; [ reflexivity | right; left; reflexivity ].
    + eexists. split; [ reflexivity | right; right; exists m0; reflexivity ].
Qed.




(** A failed file read stores an error that no screen shows: the upload
    area stays as it is, and the next successful read erases the
    error. *)
Theorem failed_read_not_shown (a : State) (read : FileRead) :
  renderContent a = EComp FileUploadP ->
  read = ReadOther \/ read = ReadFailed ->
  let a' := handleFileUpload read a in
  error a' <> None /\
  appState a' = appState a /\
  renderContent a' = EComp FileUploadP /\
  (forall result, error (handleFileUpload (ReadString result) a') = None).
Proof.
  intros Hr Hread a'.
  assert (Ha : a' = setError (error a') a /\ error a' <> None).
  { unfold a'. destruct Hread as [-> | ->]; simpl; split;
      (reflexivity || discriminate). }
  destruct Ha as [Ha He].
  split; [ exact He | ].
  split; [ rewrite Ha; reflexivity | ].
  split; [ | intro result; reflexivity ].
  rewrite Ha. revert Hr. unfold renderContent. simpl.
  destruct (appState a); try (intro H; exact H).
  - destruct (truthy (mapImageUrl a)); [ intro H; discriminate H | reflexivity ].
  - destruct (truthy (generatedImageUrl a)); intro H; discriminate H.
Qed.

Lemma failed_read_not_shown_witness :
  renderContent App.initial = EComp FileUploadP /\
  error (handleFileUpload ReadFailed App.initial) <> None /\
  renderContent (handleFileUpload ReadFailed App.initial) = EComp FileUploadP.
Proof.
  pose proof (failed_read_not_shown App.initial ReadFailed eq_refl
                (or_intror eq_refl)) as H.
  split; [ reflexivity | split ].
  - exact (proj1 H).
  - exact (proj1 (proj2 (proj2 H))).
Defined.

Lemma redraw_points (s : MapMarker.MarkerState) :
  MapMarker.points (MapMarker.redraw s) = MapMarker.points s.
Proof.
  unfold MapMarker.redraw.
  destruct (MapMarker.canvasRef s); [ | reflexivity ].
  destruct (MapMarker.imageRef s); [ | reflexivity ].
  destruct (fst (MapMarker.imageSize s) =? 0)%Z; [ reflexivity | ].
  destruct (MapMarker.points s) as [ | p0 [ | p1 [ | p2 rest]]] eqn:E;
    simpl; exact E.
Qed.

(** The first child of the wrapping [div] of the Generating screen, once
    mounted: the disabled component, whatever was mounted before. *)
Lemma generating_child (k : Element) (caption : string) (t : Instance) :
  exists first rest,
    reconcile (EHost "div" [k; overlay caption]) t = IHost "div" (first :: rest) /\
    (first = mount k \/ exists o, first = reconcile k o).
Proof.
  destruct t as [tag kids | p c | s | ];
    try (do 2 eexists; split; [ reflexivity | left; reflexivity ]).
  cbn -[String.eqb mount]. destruct (String.eqb "div" tag).
  - destruct kids as [ | o kids].
    + do 2 eexists. split; [ reflexivity | left; reflexivity ].
    + do 2 eexists. split; [ reflexivity | right; exists o; reflexivity ].
  - do 2 eexists. split; [ reflexivity | left; reflexivity ].
Qed.

(** While the orchestrator is in Generating nothing the user does
    reaches it: every event leaves the orchestrator's state and the
    PointSet on screen as they are. *)
Theorem generating_is_inert (toDataURL : Canvas -> string -> R -> string)
    (a : State) (t : Instance) (ev : Event) :
  appState a = GENERATING ->
  let u := commit a t in
  app (dispatch toDataURL u ev) = a /\
  markedPoints (tree (dispatch toDataURL u ev)) = markedPoints (tree u).
Proof.
  intros Hs u.
  assert (Hshape : exists first rest, tree u = IHost "div" (first :: rest) /\
            (first = INothing \/
             (exists url c, first = IComp (MapMarkerP
                (MapMarker.mkMarkerProps url NoGenerate true None NoUpload)) c) \/
             (exists g c, first = IComp (ResultDisplayP
                (ResultDisplay.mkResultProps g NoRestart NoUpload NoRegenerate true None)) c))).
  { unfold u, commit, renderContent; simpl. rewrite Hs.
    destruct (truthy (generatedImageUrl a)) as [g | ].
    - destruct (generating_child
                  (EComp (ResultDisplayP (ResultDisplay.mkResultProps g NoRestart
                     NoUpload NoRegenerate true None)))
                  "Regenerating your view..." t) as [first [rest [E H]]].
      exists first, rest. split; [ exact E | ].
      right; right. exists g.
      destruct H as [-> | [o ->]]; [ eexists; reflexivity | ].
      destruct o as [tag kids | p c | s | ]; try (eexists; reflexivity).
      simpl. destruct p; eexists; reflexivity.
    - destruct (truthy (mapImageUrl a)) as [url | ].
      + destruct (generating_child
                    (EComp (MapMarkerP (MapMarker.mkMarkerProps url NoGenerate true
                       None NoUpload)))
                    "Generating your street view..." t) as [first [rest [E H]]].
        exists first, rest. split; [ exact E | ].
        right; left. exists url.
        destruct H as [-> | [o ->]]; [ eexists; reflexivity | ].
        destruct o as [tag kids | p c | s | ]; try (eexists; reflexivity).
        simpl. destruct p; eexists; reflexivity.
      + destruct (generating_child ENothing "Generating your street view..." t)
          as [first [rest [E H]]].
        exists first, rest. split; [ exact E | ].
        left. destruct H as [-> | [o ->]]; [ reflexivity | ].
        destruct o; reflexivity. }
  destruct Hshape as [first [rest [Et Hfirst]]].
  assert (Ha : app u = a) by reflexivity.
  destruct u as [a0 t0]; simpl in Et, Ha. subst a0 t0.
  destruct Hfirst as [-> | [[url [c ->]] | [g [c ->]]]].
  - destruct ev; split; reflexivity.
  - destruct c as [d | cells | | ]; try (destruct ev; split; reflexivity).
    destruct ev; try (split; reflexivity).
    + split; [ reflexivity | ].
      unfold dispatch, imageLoads, markedPoints; simpl.
      rewrite redraw_points. reflexivity.
    + split; [ reflexivity | ].
      unfold dispatch, clickCanvas, markedPoints; simpl.
      rewrite redraw_points.
      rewrite MapMarkerFacts.click_ignored by (right; reflexivity). reflexivity.
    + unfold dispatch, clickUndo; simpl.
      unfold MapMarker.undoDisabled; simpl. rewrite orb_true_r. split; reflexivity.
    + unfold dispatch, clickGenerate; simpl.
      unfold MapMarker.generateDisabled; simpl. rewrite orb_true_r. split; reflexivity.
  - destruct ev; split; reflexivity.
Qed.

(** [generating_is_inert] on the screen shown while the first generation
    of the session is out: a click on Generate does nothing. *)
Lemma generating_is_inert_witness :
  let a := generationPending "data:image/jpeg;base64,AAAA" (app twoPointUi) in
  appState a = GENERATING /\
  app (dispatch sampleEncoder (commit a (tree twoPointUi)) (GenerateClick imageApi)) = a.
Proof.
  intro a. split; [ reflexivity | ].
  exact (proj1 (generating_is_inert sampleEncoder a (tree twoPointUi)
                  (GenerateClick imageApi) eq_refl)).
Defined.

(** "Upload New Map", from the marking screen or from the result screen,
    brings the application back to where it started: no map, no points,
    no artifact, no result, no error, and a fresh upload area. *)
Theorem upload_new_restarts (u : Ui) :
  (exists props cells,
     marker (tree u) = Some (props, cells) /\
     MapMarker.onUploadNew props = CallUploadNew) \/
  (exists props,
     marker (tree u) = None /\
     result (tree u) = Some props /\
     ResultDisplay.disabled props = false /\
     ResultDisplay.onUploadNew props = CallUploadNew) ->
  clickUploadNew u = start.
Proof.
  intros [[props [cells [Hm Hc]]] | [props [Hm [Hr [Hd Hc]]]]];
    unfold clickUploadNew; rewrite Hm; [ rewrite Hc | rewrite Hr, Hd, Hc ];
    unfold commit, start; f_equal; simpl.
  - destruct (tree u) as [tag kids | p c | s | ]; try discriminate Hm;
      [ reflexivity | ].
    destruct p; try discriminate Hm. reflexivity.
  - destruct (tree u) as [tag kids | p c | s | ]; try discriminate Hr;
      [ reflexivity | ].
    destruct p; try discriminate Hr. reflexivity.
Qed.

Lemma upload_new_restarts_witness :
  marker (tree twoPointUi) = Some (enabledProps, twoPointCells) /\
  clickUploadNew twoPointUi = start /\
  clickUploadNew resultUi = start.
Proof.
  split; [ reflexivity | split ].
  - apply upload_new_restarts. left. exists enabledProps, twoPointCells.
    split; reflexivity.
  - apply upload_new_restarts. right. eexists.
    split; [ reflexivity | split; [ reflexivity | split; reflexivity ] ].
Defined.

(** "Try a Different Spot" on the result screen goes back to Marking on
    the same map with a freshly mounted marker: no point is stored and no
    error is shown; the cached artifact is not touched. *)
Theorem restart_gives_fresh_marker (u : Ui) (props : ResultDisplay.ResultDisplayProps)
    (url : string) :
  result (tree u) = Some props ->
  ResultDisplay.disabled props = false ->
  ResultDisplay.onRestart props = CallRestart ->
  truthy (mapImageUrl (app u)) = Some url ->
  clickRestart u =
    mkUi (mkApp MARKING (mapImageUrl (app u)) None (lastMergedImage (app u)) None)
         (IComp (MapMarkerP
                   (MapMarker.mkMarkerProps url CallGenerationStart false None
                      CallUploadNew))
                (MapMarkerC MapMarker.initial)).
Proof.
  intros Hr Hd Hc Hu. unfold clickRestart. rewrite Hr, Hd, Hc.
  unfold commit, handleRestart, renderContent; simpl. rewrite Hu. f_equal.
  destruct (tree u) as [tag kids | p c | s | ]; try discriminate Hr;
    [ reflexivity | ].
  destruct p; try discriminate Hr. reflexivity.
Qed.

Lemma restart_gives_fresh_marker_witness :
  result (tree resultUi) =
    Some (ResultDisplay.mkResultProps "data:image/png;base64,VIEW"
            CallRestart CallUploadNew CallRegenerate false None) /\
  markedPoints (tree (clickRestart resultUi)) = Some [].
Proof.
  split; [ reflexivity | ].
  rewrite (restart_gives_fresh_marker resultUi _ mapUrl eq_refl eq_refl eq_refl eq_refl).
  reflexivity.
Defined.

(** ** The screens between events *)

Lemma upload_render (a : State) :
  appState a = UPLOAD \/ (appState a = MARKING /\ truthy (mapImageUrl a) = None) ->
  renderContent a = EComp FileUploadP.
Proof.
  unfold renderContent. intros [-> | [-> ->]]; reflexivity.
Qed.

Lemma marking_render (a : State) (url : string) :
  appState a = MARKING ->
  truthy (mapImageUrl a) = Some url ->
  renderContent a =
    EComp (MapMarkerP (MapMarker.mkMarkerProps url CallGenerationStart false
                         (error a) CallUploadNew)).
Proof. unfold renderContent. intros -> ->. reflexivity. Qed.

Lemma result_render (a : State) (generated : string) :
  appState a = RESULT ->
  truthy (generatedImageUrl a) = Some generated ->
  renderContent a =
    EComp (ResultDisplayP (ResultDisplay.mkResultProps generated CallRestart
                             CallUploadNew CallRegenerate false (error a))).
Proof. unfold renderContent. intros -> ->. reflexivity. Qed.

Lemma generating_over_comp (a : State) (p : CompProps) (c : CompCells) :
  appState a = GENERATING ->
  exists kids, reconcile (renderContent a) (IComp p c) = IHost "div" kids.
Proof.
  unfold renderContent. intros ->.
  destruct (truthy (generatedImageUrl a)); eexists; reflexivity.
Qed.

(** An asynchronous handler that went through Generating and ends on a
    component screen mounts that component afresh. *)
Lemma commit_through_generating (o : Outcome) (a1 : State) (p : CompProps)
    (c : CompCells) (p2 : CompProps) :
  pending o = Some a1 ->
  appState a1 = GENERATING ->
  renderContent (settled o) = EComp p2 ->
  commitOutcome o (IComp p c) = mkUi (settled o) (IComp p2 (freshCells p2)).
Proof.
  intros Hp Hs Hr. unfold commitOutcome. rewrite Hp. unfold commit; simpl.
  destruct (generating_over_comp a1 p c Hs) as [kids ->].
  rewrite Hr. reflexivity.
Qed.

Lemma imageOrThrow_cases (c : Completion (option string)) (g : string) :
  imageOrThrow c = Returned g -> c = Returned (Some g) /\ truthy (Some g) = Some g.
Proof.
  unfold imageOrThrow. destruct c as [[s | ] | e]; try discriminate.
  simpl. destruct (String.eqb s "") eqn:E; [ discriminate | ].
  intro H. injection H as <-. split; [ reflexivity | ].
  simpl. rewrite E. reflexivity.
Qed.

Lemma no_export_keeps_cells toDataURL cells cells' :
  MapMarker.handleGenerateClick toDataURL cells = (cells', None) -> cells' = cells.
Proof.
  unfold MapMarker.handleGenerateClick.
  destruct (MapMarker.canvasRef cells); [ | intro H; injection H as <-; reflexivity ].
  destruct (MapMarker.imageRef cells); [ | intro H; injection H as <-; reflexivity ].
  destruct (MapMarker.points cells) as [ | p0 [ | p1 [ | p2 rest]]];
    intro H; try discriminate H; injection H as <-; reflexivity.
Qed.

Lemma at_rest_start : AtRest start.
Proof.
  apply (OnUpload App.initial false); [ left; repeat split; reflexivity | reflexivity ].
Qed.

Lemma at_rest_after_read (a : State) (dragActive : bool) (read : FileRead) :
  AtRest (mkUi a (IComp FileUploadP (FileUploadC dragActive))) ->
  AtRest (commit (handleFileUpload read a) (IComp FileUploadP (FileUploadC dragActive))).
Proof.
  intro H. inversion H as [a0 d0 Hst Hg | | ]; subst.
  pose proof (upload_render a
    (match Hst with
     | or_introl (conj Hu _) => or_introl Hu
     | or_intror Hm => or_intror Hm
     end)) as Hr.
  destruct read as [r | | ].
  - unfold commit, handleFileUpload.
    set (a' := setGeneratedImageUrl None
                 (setError None (setAppState MARKING (setMapImageUrl (Some r) a)))).
    destruct (truthy (Some r)) as [url | ] eqn:Et.
    + rewrite (marking_render a' url eq_refl Et). simpl.
      apply (OnMarking a' url MapMarker.initial);
        try reflexivity; [ exact Et | simpl; lia ].
    + rewrite (upload_render a' (or_intror (conj eq_refl Et))). simpl.
      apply (OnUpload a' dragActive);
        [ right; split; [ reflexivity | exact Et ] | reflexivity ].
  - unfold commit, handleFileUpload.
    assert (Hr' : renderContent (setError (Some "Failed to read the image file.") a)
                  = EComp FileUploadP) by (apply upload_render; exact
      (match Hst with
       | or_introl (conj Hu _) => or_introl Hu
       | or_intror Hm => or_intror Hm
       end)).
    rewrite Hr'. simpl.
    apply (OnUpload (setError (Some "Failed to read the image file.") a) dragActive);
      assumption.
  - unfold commit, handleFileUpload.
    assert (Hr' : renderContent (setError (Some "Error reading file.") a)
                  = EComp FileUploadP) by (apply upload_render; exact
      (match Hst with
       | or_introl (conj Hu _) => or_introl Hu
       | or_intror Hm => or_intror Hm
       end)).
    rewrite Hr'. simpl.
    apply (OnUpload (setError (Some "Error reading file.") a) dragActive);
      assumption.
Qed.

Lemma at_rest_back_to_upload (t : Instance) :
  (exists p c, t = IComp p c /\ sameType FileUploadP p = false) ->
  AtRest (commit (handleUploadNew App.initial) t).
Proof.
  intros [p [c [-> Hs]]]. unfold commit.
  destruct p; try discriminate Hs; simpl;
    apply (OnUpload App.initial false);
    (left; repeat split; reflexivity) || reflexivity.
Qed.

Lemma handleUploadNew_initial (a : State) : handleUploadNew a = App.initial.
Proof. reflexivity. Qed.

(** Every event takes a resting screen to a resting screen. *)
Lemma at_rest_dispatch (toDataURL : Canvas -> string -> R -> string)
    (u : Ui) (ev : Event) :
  AtRest u -> AtRest (dispatch toDataURL u ev).
Proof.
  intro H.
  inversion H as [a d Hst Hg | a url cells Hs Hu Hg Hl
                  | a url g merged subtype payload Hs Hu Hg Hm Hp]; subst.
  - (* the upload area *)
    destruct ev; try exact H.
    + apply (OnUpload a (handleDrag type d)); assumption.
    + unfold dispatch, drop; simpl.
      destruct (firstFile files) as [f | ].
      * unfold onFileUpload; simpl. apply at_rest_after_read.
        apply (OnUpload a false); assumption.
      * apply (OnUpload a false); assumption.
    + unfold dispatch, choose; simpl. unfold handleFileChange.
      destruct (firstFile files) as [f | ]; [ | exact H ].
      unfold onFileUpload; simpl. apply at_rest_after_read. exact H.
  - (* the marking screen *)
    destruct ev; try exact H.
    + unfold dispatch, imageLoads; simpl.
      apply (OnMarking a url); try assumption.
      rewrite redraw_points. exact Hl.
    + unfold dispatch, clickCanvas; simpl.
      apply (OnMarking a url); try assumption.
      rewrite redraw_points.
      exact (MapMarkerFacts.step_bound _ cells (MapMarker.Add rect event) Hl).
    + unfold dispatch, clickUndo; simpl.
      destruct (MapMarker.undoDisabled _ cells); [ exact H | ]. simpl.
      apply (OnMarking a url); try assumption.
      rewrite redraw_points.
      exact (MapMarkerFacts.step_bound
               (MapMarker.mkMarkerProps url CallGenerationStart false (error a)
                  CallUploadNew) cells MapMarker.Undo Hl).
    + unfold dispatch, clickGenerate; simpl.
      destruct (MapMarker.generateDisabled _ cells); [ exact H | ].
      destruct (MapMarker.handleGenerateClick toDataURL cells)
        as [cells' [mergedImage | ]] eqn:Ex; simpl.
      * (* the export is handed to the orchestrator *)
        set (o := handleGenerationStart api mergedImage a).
        assert (Ho : o = mkOutcome (Some (generationPending mergedImage a))
                       (generationSettled (fst (generateStreetView api mergedImage))
                          (generationPending mergedImage a))
                       (snd (generateStreetView api mergedImage))).
        { unfold o, handleGenerationStart.
          destruct (generateStreetView api mergedImage); reflexivity. }
        destruct (imageOrThrow (fst (generateStreetView api mergedImage)))
          as [generated | err] eqn:Ei.
        -- destruct (imageOrThrow_cases _ _ Ei) as [Ec Et].
           destruct (returned_input_matches _ _ _ Ec) as [st [pl Hmatch]].
           assert (Hset : settled o =
             mkApp RESULT (mapImageUrl a) (Some generated) (Some mergedImage) None).
           { rewrite Ho. simpl. unfold generationSettled. rewrite Ei. reflexivity. }
           rewrite (commit_through_generating o (generationPending mergedImage a) _ _
                      (ResultDisplayP (ResultDisplay.mkResultProps generated CallRestart
                         CallUploadNew CallRegenerate false (error (settled o)))));
             [ | rewrite Ho; reflexivity | reflexivity
               | apply result_render; rewrite Hset; [ reflexivity | exact Et ] ].
           apply (OnResult (settled o) url generated mergedImage st pl);
             rewrite ?Hset; try reflexivity; assumption.
        -- assert (Hset : settled o =
             mkApp MARKING (mapImageUrl a) (generatedImageUrl a) (Some mergedImage)
               (Some ("Failed to generate view: " ++ errorMessage err)%string)).
           { rewrite Ho. simpl. unfold generationSettled. rewrite Ei. reflexivity. }
           rewrite (commit_through_generating o (generationPending mergedImage a) _ _
                      (MapMarkerP (MapMarker.mkMarkerProps url CallGenerationStart false
                         (error (settled o)) CallUploadNew)));
             [ | rewrite Ho; reflexivity | reflexivity
               | apply marking_render; rewrite Hset; [ reflexivity | exact Hu ] ].
           apply (OnMarking (settled o) url MapMarker.initial);
             rewrite ?Hset; try reflexivity; try assumption. simpl. lia.
      * rewrite (no_export_keeps_cells _ _ _ Ex). exact H.
    + unfold dispatch, clickUploadNew; simpl.
      rewrite handleUploadNew_initial.
      apply at_rest_back_to_upload. do 2 eexists. split; reflexivity.
  - (* the result screen *)
    destruct ev; try exact H.
    + unfold dispatch, clickUploadNew; simpl.
      rewrite handleUploadNew_initial.
      apply at_rest_back_to_upload. do 2 eexists. split; reflexivity.
    + unfold dispatch, clickRegenerate; simpl.
      pose proof (matching_truthy _ _ _ Hp) as Htm.
      set (a1 := setError None (setAppState GENERATING a)).
      set (o := handleRegenerate api a).
      assert (Ho : o = mkOutcome (Some a1)
                     (regenerationSettled (fst (generateStreetView api merged)) a1)
                     (snd (generateStreetView api merged))).
      { unfold o, handleRegenerate. rewrite Hm, Htm.
        destruct (generateStreetView api merged); reflexivity. }
      destruct (imageOrThrow (fst (generateStreetView api merged)))
        as [generated | err] eqn:Ei.
      * destruct (imageOrThrow_cases _ _ Ei) as [Ec Et].
        assert (Hset : settled o =
          mkApp RESULT (mapImageUrl a) (Some generated) (lastMergedImage a) None).
        { rewrite Ho. simpl. unfold regenerationSettled. rewrite Ei. reflexivity. }
        rewrite (commit_through_generating o a1 _ _
                   (ResultDisplayP (ResultDisplay.mkResultProps generated CallRestart
                      CallUploadNew CallRegenerate false (error (settled o)))));
          [ | rewrite Ho; reflexivity | reflexivity
            | apply result_render; rewrite Hset; [ reflexivity | exact Et ] ].
        apply (OnResult (settled o) url generated merged subtype payload);
          rewrite ?Hset; try reflexivity; assumption.
      * assert (Hset : settled o =
          mkApp RESULT (mapImageUrl a) (generatedImageUrl a) (lastMergedImage a)
            (Some ("Failed to regenerate view: " ++ errorMessage err)%string)).
        { rewrite Ho. simpl. unfold regenerationSettled. rewrite Ei. reflexivity. }
        rewrite (commit_through_generating o a1 _ _
                   (ResultDisplayP (ResultDisplay.mkResultProps g CallRestart
                      CallUploadNew CallRegenerate false (error (settled o)))));
          [ | rewrite Ho; reflexivity | reflexivity
            | apply result_render; rewrite Hset; [ reflexivity | exact Hg ] ].
        apply (OnResult (settled o) url g merged subtype payload);
          rewrite ?Hset; try reflexivity; assumption.
    + unfold dispatch, clickRestart; simpl.
      unfold commit.
      rewrite (marking_render (handleRestart a) url eq_refl Hu). simpl.
      apply (OnMarking (handleRestart a) url MapMarker.initial);
        try reflexivity; [ exact Hu | simpl; lia ].
Qed.

Lemma at_rest_run (toDataURL : Canvas -> string -> R -> string)
    (evs : list Event) : forall u, AtRest u -> AtRest (runEvents toDataURL evs u).
Proof.
  induction evs as [ | ev evs IH]; intros u H; [ exact H | ].
  apply IH, at_rest_dispatch, H.
Qed.

(** Whatever the user does and whatever the readers and the service
    answer, the answers arriving before the next event, the application
    rests on one of three screens: the upload area, the marker, or the
    result.  So it never rests in Generating; the fallback text
    "Something went wrong." is never on screen; on the result screen a
    cached artifact of the pattern's shape is there, so that a
    regeneration always reaches the service call; and the marker on
    screen never holds more than two points. *)
Theorem session_rests_on_three_screens (toDataURL : Canvas -> string -> R -> string)
    (evs : list Event) :
  let u := runEvents toDataURL evs start in
  AtRest u /\
  appState (app u) <> GENERATING /\
  renderContent (app u) <> EHost "p" [EText "Something went wrong."] /\
  (forall api, appState (app u) = RESULT ->
               pending (handleRegenerate api (app u)) <> None) /\
  (forall props cells, marker (tree u) = Some (props, cells) ->
                       (List.length (MapMarker.points cells) <= 2)%nat).
Proof.
  intro u.
  assert (H : AtRest u) by (apply at_rest_run, at_rest_start).
  split; [ exact H | ].
  inversion H as [a d Hst Hg Eu | a url cells Hs Hu Hg Hl Eu
                  | a url g merged subtype payload Hs Hu Hg Hm Hp Eu]; simpl.
  - assert (Hr : renderContent a = EComp FileUploadP)
      by (apply upload_render; destruct Hst as [[Hx _] | Hx]; [ left | right ]; exact Hx).
    repeat split.
    + destruct Hst as [[-> _] | [-> _]]; discriminate.
    + rewrite Hr. discriminate.
    + intros api E. destruct Hst as [[Hx _] | [Hx _]]; rewrite Hx in E; discriminate E.
    + intros props cells E. discriminate E.
  - repeat split.
    + rewrite Hs. discriminate.
    + rewrite (marking_render a url Hs Hu). discriminate.
    + intros api E. rewrite Hs in E. discriminate E.
    + intros props cells' E. injection E as _ <-. exact Hl.
  - repeat split.
    + rewrite Hs. discriminate.
    + rewrite (result_render a g Hs Hg). discriminate.
    + intros api _. unfold handleRegenerate.
      rewrite Hm, (matching_truthy _ _ _ Hp).
      destruct (generateStreetView api merged). discriminate.
    + intros props cells E. discriminate E.
Qed.

(** What is under the spinner while the service is awaited.  During a
    first generation it is a disabled marker mounted for the occasion:
    the map without the two points.  During a regeneration it is the
    disabled result screen with the image generated before, without the
    error line. *)
Theorem waiting_screens (api : Api) (a : State) (merged url : string) :
  truthy (mapImageUrl a) = Some url ->
  (truthy (generatedImageUrl a) = None ->
   forall props cells,
     let u := commit (generationPending merged a)
                (IComp (MapMarkerP props) (MapMarkerC cells)) in
     marker (tree u) =
       Some (MapMarker.mkMarkerProps url NoGenerate true None NoUpload,
             MapMarker.initial) /\
     markedPoints (tree u) = Some []) /\
  (forall generated,
     truthy (generatedImageUrl a) = Some generated ->
     truthy (lastMergedImage a) = Some merged ->
     exists a1,
       pending (handleRegenerate api a) = Some a1 /\
       forall t,
         result (tree (commit a1 t)) =
           Some (ResultDisplay.mkResultProps generated NoRestart NoUpload
                   NoRegenerate true None)).
Proof.
  intro Hu. split.
  - intros Hg props cells u. unfold u, commit, renderContent; simpl.
    rewrite Hg, Hu. split; reflexivity.
  - intros generated Hg Hm.
    exists (setError None (setAppState GENERATING a)). split.
    + unfold handleRegenerate. rewrite Hm.
      destruct (generateStreetView api merged); reflexivity.
    + intro t.
      assert (Hr : renderContent (setError None (setAppState GENERATING a)) =
                   EHost "div"
                     [EComp (ResultDisplayP (ResultDisplay.mkResultProps generated
                        NoRestart NoUpload NoRegenerate true None));
                      overlay "Regenerating your view..."])
        by (unfold renderContent; simpl; rewrite Hg; reflexivity).
      unfold commit. cbn [tree]. rewrite Hr.
      destruct (generating_child
                  (EComp (ResultDisplayP (ResultDisplay.mkResultProps generated
                     NoRestart NoUpload NoRegenerate true None)))
                  "Regenerating your view..." t) as [first [rest [E H]]].
      rewrite E.
      destruct H as [-> | [o ->]]; [ reflexivity | ].
      destruct o as [tag kids | p c | s | ]; try reflexivity.
      simpl. destruct p; reflexivity.
Qed.

Lemma waiting_screens_witness :
  truthy (mapImageUrl (app twoPointUi)) = Some mapUrl /\
  markedPoints (tree twoPointUi) = Some twoPoints /\
  markedPoints
    (tree (commit (generationPending "data:image/jpeg;base64,AAAA" (app twoPointUi))
             (tree twoPointUi))) = Some [].
Proof.
  split; [ reflexivity | split; [ reflexivity | ] ].
  exact (proj2 (proj1 (waiting_screens failingApi (app twoPointUi)
                         "data:image/jpeg;base64,AAAA" mapUrl eq_refl)
                  eq_refl enabledProps twoPointCells)).
Defined.

(** The highlight of the upload area follows the last drag event of a
    known type: on after "dragenter" or "dragover", off after
    "dragleave"; events of any other type are ignored. *)
Theorem highlight_follows_last_drag (types : list string) (dragActive : bool) :
  fold_left (fun d type => handleDrag type d) types dragActive =
    match filter (fun type => (type =? "dragenter")%string ||
                              (type =? "dragover")%string ||
                              (type =? "dragleave")%string) (rev types) with
    | [] => dragActive
    | type :: _ => negb (type =? "dragleave")%string
    end.
Proof.
  induction types as [ | type types IH] using rev_ind; [ reflexivity | ].
  rewrite fold_left_app, rev_app_distr.
  change (rev [type] ++ rev types) with (type :: rev types).
  cbn [fold_left filter]. unfold handleDrag at 1.
  destruct (String.eqb type "dragenter") eqn:E1;
    [ apply String.eqb_eq in E1; subst type; reflexivity | ].
  destruct (String.eqb type "dragover") eqn:E2;
    [ apply String.eqb_eq in E2; subst type; reflexivity | ].
  destruct (String.eqb type "dragleave") eqn:E3; simpl.
  - rewrite E3. reflexivity.
  - exact IH.
Qed.

End OrchestratorMore.
